(** * Crux AI: command routing, wake-word handling and speech synthesis

    A shallow embedding of [commands.py], [assistant.py] and [tts.py],
    of the recognition and the listening switch of [speech.py], of the
    microphone toggle of [main.py] and of the text escaping of [gui.py].

    Python [str] values are modelled as [string]: the UTF-8 bytes of the
    text.  Substring search, [startswith] and [replace] on UTF-8 bytes
    coincide with the same operations on code points.  [str.lower] and
    [str.strip] follow the Unicode tables of the interpreter: they are
    not defined here but taken as they are, as the two methods of the
    class [Builtins], and every property below holds whatever they
    compute.  Calls into the operating system and into third-party
    libraries are recorded as a trace of actions, and what those calls
    answer (a raised exception, a file that exists) is an explicit input
    of the embedded function.  Reads of the machine state and calls to
    the logging module leave no trace; launching a program, opening a
    page or a file and setting the volume are taken to succeed. *)

From Stdlib Require Import ZArith QArith Qminmax Ascii String List Lia DecimalString.
From stdpp Require Import gmap strings.

Open Scope string_scope.
Open Scope list_scope.

(** ** Python string primitives *)

Module PyStr.

(** [str.lower] and [str.strip] (without argument) of the interpreter. *)
Class Builtins := {
  lower : string -> string;
  strip : string -> string
}.

(** [s.startswith(p)] *)
Definition startswith (p s : string) : bool := String.prefix p s.

(** [s.find(sub)], with [None] for Python's -1 *)
Fixpoint find (sub s : string) : option nat :=
  if startswith sub s then Some 0%nat
  else match s with
       | EmptyString => None
       | String _ s' => option_map S (find sub s')
       end.

(** [sub in s] *)
Definition contains (sub s : string) : bool :=
  match find sub s with Some _ => true | None => false end.

(** Truth value of a string: only the empty string is false. *)
Definition truthy (s : string) : bool :=
  match s with EmptyString => false | _ => true end.

(** [s[:n]] and [s[n:]] *)
Fixpoint take (n : nat) (s : string) : string :=
  match n, s with
  | S k, String c s' => String c (take k s')
  | _, _ => EmptyString
  end.

Fixpoint drop (n : nat) (s : string) : string :=
  match n, s with
  | S k, String _ s' => drop k s'
  | _, _ => s
  end.

(** Left-to-right scan of [str.replace] for a non-empty [old]: [skip]
    counts the characters of a match that are still to be passed
    over. *)
Fixpoint replace_scan (old new : string) (skip : nat) (s : string) : string :=
  match s with
  | EmptyString => EmptyString
  | String c s' =>
      match skip with
      | S k => replace_scan old new k s'
      | O => if startswith old s
             then new +:+ replace_scan old new (String.length old - 1) s'
             else String c (replace_scan old new 0 s')
      end
  end.

(** With an empty [old], [str.replace] puts [new] before every
    character and at the end. *)
Fixpoint replace_empty (new s : string) : string :=
  match s with
  | EmptyString => new
  | String c s' => new +:+ String c (replace_empty new s')
  end.

(** [s.replace(old, new)]: every non-overlapping occurrence, from the
    left. *)
Definition replace (old new s : string) : string :=
  match old with
  | EmptyString => replace_empty new s
  | _ => replace_scan old new 0 s
  end.

(** [s[:i] + s[i+len(old):]] at the first occurrence of [old]: what
    [s.replace(old, "", 1)] computes. *)
Definition remove_first (old s : string) : string :=
  match find old s with
  | Some i => take i s +:+ drop (i + String.length old) s
  | None => s
  end.

(** [str(n)] for an integer *)
Definition str_of_Z (n : Z) : string := NilEmpty.string_of_int (Z.to_int n).

End PyStr.

Import PyStr.

(** ** Configuration

    The dictionary loaded from [config.yaml], restricted to the keys read
    by the embedded functions.  A key that may be missing is an
    [option]; the default of the matching [cfg.get] is applied where the
    key is read. *)

Record Config := {
  app_wake_word : option string;
  app_language_preference : option string;
  apps : gmap string string;
  allow_shutdown : option bool;
  music_path : option string
}.

(** ** commands.py *)

Module Commands.

(** What the machine offers: the master volume when pycaw could be
    imported ([AudioUtilities] is not [None]), the answer of
    [sbc.set_brightness] when screen_brightness_control could be
    imported ([None] for success, [Some msg] for an exception whose
    text is [msg]), and [os.path.exists]. *)
Record Host := {
  AudioUtilities : option Q;
  sbc : option (string -> option string);
  path_exists : string -> bool
}.

(** Actions on the operating system, in the order they are made. *)
Inductive os_action :=
| Popen (cmd : string)
| WebbrowserOpen (url : string)
| SetMasterVolumeLevelScalar (level : Q)
| SetBrightness (arg : string)
| OsSystem (cmd : string)
| OsStartfile (path : string).

(** A rule answers with the returned pair and the actions made, or
    falls through. *)
Definition answer : Type := bool * string * list os_action.

Definition or_else (r : option answer) (k : answer) : answer :=
  match r with Some a => a | None => k end.

Notation "r 'orelse' k" := (or_else r k) (at level 70, right associativity).

Definition nl : string := String (ascii_of_nat 10) EmptyString.

Definition bubble_sort_code : string :=
  "def bubble_sort(arr):" +:+ nl +:+
  "    n = len(arr)" +:+ nl +:+
  "    for i in range(n):" +:+ nl +:+
  "        for j in range(0, n-i-1):" +:+ nl +:+
  "            if arr[j] > arr[j+1]:" +:+ nl +:+
  "                arr[j], arr[j+1] = arr[j+1], arr[j]" +:+ nl +:+
  "    return arr" +:+ nl +:+
  "print(bubble_sort([64, 34, 25, 12, 22, 11, 90]))".

Definition disabled_message : string :=
  "Shutdown and restart are disabled in config.".

Definition volume_rule (command : string) (host : Host) : option answer :=
  if contains "volume" command then
    match AudioUtilities host with
    | Some cur =>
        if contains "up" command then
          Some (true, "Volume increased.",
                [SetMasterVolumeLevelScalar (Qmin (cur + (1 # 10)) 1)])
        else if contains "down" command then
          Some (true, "Volume decreased.",
                [SetMasterVolumeLevelScalar (Qmax (cur - (1 # 10)) 0)])
        else None
    | None => None
    end
  else None.

Definition brightness_rule (command : string) (host : Host) : option answer :=
  if contains "brightness" command then
    match sbc host with
    | Some set_brightness =>
        if contains "up" command then
          match set_brightness "+10" with
          | None => Some (true, "Brightness increased.", [SetBrightness "+10"])
          | Some e => Some (true, "Brightness control error: " +:+ e,
                            [SetBrightness "+10"])
          end
        else if contains "down" command then
          match set_brightness "-10" with
          | None => Some (true, "Brightness decreased.", [SetBrightness "-10"])
          | Some e => Some (true, "Brightness control error: " +:+ e,
                            [SetBrightness "-10"])
          end
        else None
    | None => None
    end
  else None.

Definition shutdown_rule (command : string) (cfg : Config) : option answer :=
  if contains "shutdown" command || contains "restart" command then
    if negb (default false (allow_shutdown cfg)) then
      Some (true, disabled_message, [])
    else if negb (contains "confirm" command) then
      Some (true, "Say 'confirm shutdown' or 'confirm restart' to proceed.", [])
    else if contains "shutdown" command then
      Some (true, "Shutting down system...", [OsSystem "shutdown /s /t 1"])
    else if contains "restart" command then
      Some (true, "Restarting system...", [OsSystem "shutdown /r /t 1"])
    else None
  else None.

Definition music_rule (command : string) (cfg : Config) (host : Host)
  : option answer :=
  if contains "play music" command then
    let music_path := default "" (music_path cfg) in
    if truthy music_path && path_exists host music_path then
      Some (true, "Playing music.", [OsStartfile music_path])
    else Some (true, "Music path not configured.", [])
  else None.

Definition code_rule (command : string) : option answer :=
  if startswith "crux write" command then
    if contains "bubble sort" command then Some (true, bubble_sort_code, [])
    else None
  else None.

Section WithBuiltins.

Context `{py : Builtins}.

(** [handle_command(command, cfg)] *)
Definition handle_command (command : string) (cfg : Config) (host : Host)
  : answer :=
  let command := lower command in
  if startswith "open " command then
    let app := replace "open " "" command in
    match apps cfg !! app with
    | Some launch => (true, "Opening " +:+ app +:+ ".", [Popen launch])
    | None => (true, "App " +:+ app +:+ " not found in config.", [])
    end
  else if startswith "search " command then
    let query := replace "search " "" command in
    (true, "Searching the web for " +:+ query +:+ ".",
     [WebbrowserOpen ("https://www.google.com/search?q=" +:+ query)])
  else
    volume_rule command host orelse
    brightness_rule command host orelse
    shutdown_rule command cfg orelse
    music_rule command cfg host orelse
    code_rule command orelse
    (false, "Command not recognized.", []).

End WithBuiltins.

Definition handled (a : answer) : bool := fst (fst a).
Definition response (a : answer) : string := snd (fst a).
Definition actions (a : answer) : list os_action := snd a.

End Commands.

(** ** tts.py *)

Module TTS.

(** The fields of a [TTSEngine] that [say] reads or writes.  [engine]
    is the pyttsx3 handle, [None] when there is none. *)
Record TTSEngine := {
  mode : string;
  lang_pref : string;
  engine : option nat;
  tts_cache_dir : string;
  gtts_lang_map : gmap string string
}.

Definition set_lang_pref (l : string) (self : TTSEngine) : TTSEngine :=
  {| mode := mode self; lang_pref := l; engine := engine self;
     tts_cache_dir := tts_cache_dir self;
     gtts_lang_map := gtts_lang_map self |}.

Definition set_engine (h : nat) (self : TTSEngine) : TTSEngine :=
  {| mode := mode self; lang_pref := lang_pref self; engine := Some h;
     tts_cache_dir := tts_cache_dir self;
     gtts_lang_map := gtts_lang_map self |}.

(** How [engine.say(text); engine.runAndWait()] ends. *)
Inductive run_outcome := Spoken | RaisesRuntimeError | RaisesOther.

(** How [gTTS(text=text, lang=lang_code)] followed by [save(mp3_path)]
    ends: the audio is written; or an exception is raised once [save]
    has opened the file, which is left behind empty (a request that
    fails, a text with nothing to speak); or an exception is raised
    before the file is opened (a language that gTTS does not know, a
    cache directory that cannot be written), which leaves no file. *)
Inductive save_outcome := Saved | RaisesAfterOpen | RaisesBeforeOpen.

(** What the outside answers during one call of [say]:
    the language preference found in the configuration dictionary,
    the end of the first offline attempt, the handle returned by
    [pyttsx3.init()] in the recovery branch ([None] when it raises),
    whether the second attempt speaks, and how the hosted synthesis
    ends. *)
Record Env := {
  cfg_language : option string;
  first_run : run_outcome;
  reinit : option nat;
  second_run : bool;
  gtts_save : save_outcome
}.

Inductive tts_action :=
| PickVoice (lang : string)
| EngineSay (handle : nat) (text : string)
| EngineInit
| GttsSynth (text lang : string)
| CacheWrite (path : string)
| Playsound (path : string).

Definition result : Type := TTSEngine * gset string * list tts_action.

Section Platform.

(** Python's [hash] on strings (fixed within one process) and
    [os.path.join]. *)
Variable hash : string -> Z.
Variable path_join : string -> string -> string.

Definition gtts_lang_code (self : TTSEngine) (lang_pref : string) : string :=
  default "en" (gtts_lang_map self !! lang_pref).

Definition cache_key (lang_code text : string) : string :=
  lang_code +:+ "_" +:+ str_of_Z (Z.abs (hash text)) +:+ ".mp3".

Definition mp3_path_of (self : TTSEngine) (text : string) : string :=
  path_join (tts_cache_dir self)
            (cache_key (gtts_lang_code self (lang_pref self)) text).

(** [_say_online(text)]; [files] are the paths that exist. *)
Definition _say_online (self : TTSEngine) (files : gset string)
           (text : string) (env : Env) : result :=
  let lang_code := gtts_lang_code self (lang_pref self) in
  let mp3_path := path_join (tts_cache_dir self) (cache_key lang_code text) in
  if decide (mp3_path ∈ files) then
    (self, files, [Playsound mp3_path])
  else
    match gtts_save env with
    | Saved =>
        (self, {[mp3_path]} ∪ files,
         [GttsSynth text lang_code; CacheWrite mp3_path; Playsound mp3_path])
    | RaisesAfterOpen =>
        (self, {[mp3_path]} ∪ files, [GttsSynth text lang_code])
    | RaisesBeforeOpen =>
        (self, files, [GttsSynth text lang_code])
    end.

Definition after (pre : list tts_action) (r : result) : result :=
  let '(self, files, acts) := r in (self, files, pre ++ acts).

(** [_say_offline(text)] *)
Definition _say_offline (self : TTSEngine) (files : gset string)
           (text : string) (env : Env) : result :=
  let current_lang := default (lang_pref self) (cfg_language env) in
  let changed := negb (current_lang =? lang_pref self) in
  let self1 := if changed then set_lang_pref current_lang self else self in
  let pick := if changed
              then match engine self with
                   | Some _ => [PickVoice current_lang]
                   | None => []
                   end
              else [] in
  match engine self with
  | None => after pick (_say_online self1 files text env)
  | Some h =>
      match first_run env with
      | Spoken => (self1, files, pick ++ [EngineSay h text])
      | RaisesRuntimeError =>
          match reinit env with
          | Some h' =>
              let self2 := set_engine h' self1 in
              let again := [EngineSay h text; EngineInit;
                            PickVoice (lang_pref self2); EngineSay h' text] in
              if second_run env then (self2, files, pick ++ again)
              else after (pick ++ again) (_say_online self2 files text env)
          | None =>
              after (pick ++ [EngineSay h text; EngineInit])
                    (_say_online self1 files text env)
          end
      | RaisesOther =>
          after (pick ++ [EngineSay h text])
                (_say_online self1 files text env)
      end
  end.

(** [say(text)] *)
Definition say (self : TTSEngine) (files : gset string)
           (text : string) (env : Env) : result :=
  if negb (truthy text) then (self, files, [])
  else if (mode self =? "offline") && bool_decide (is_Some (engine self))
  then _say_offline self files text env
  else _say_online self files text env.

End Platform.

Definition st_of (r : result) : TTSEngine := fst (fst r).
Definition files_of (r : result) : gset string := snd (fst r).
Definition acts_of (r : result) : list tts_action := snd r.

Definition is_cache_write (a : tts_action) : bool :=
  match a with CacheWrite _ => true | _ => false end.

(** What [say] does with a text that is not empty: the text is handed
    to the offline engine or to the hosted synthesis, or its cached
    file is played. *)
Definition attempts (text : string) (acts : list tts_action) : Prop :=
  (exists h, In (EngineSay h text) acts) \/
  (exists lang, In (GttsSynth text lang) acts) \/
  (exists path, In (Playsound path) acts).

End TTS.

(** ** assistant.py *)

Module Assistant.

(** The events handed to the event callback. *)
Inductive event :=
| log (message : string)
| status (message : string)
| transcript (role text : string).

(** Everything an utterance makes happen, in order: events emitted,
    lines appended to the JSON-lines file, actions of
    [commands.handle_command], the request sent to the hosted model,
    and actions of the speech engine. *)
Inductive effect :=
| Emit (e : event)
| AuditLine (path role text : string)
| Os (a : Commands.os_action)
| GptRequest (text : string)
| Tts (a : TTS.tts_action).

(** How [openai.ChatCompletion.create] ends: the content of the first
    choice, or an exception. *)
Inductive gpt_outcome :=
| GptReply (content : string)
| GptRaises (error : string).

(** What the outside answers while one utterance is handled;
    [jsonl_append role text] tells whether the line for [role] and
    [text] can be appended to the JSON-lines file ([false] when opening
    the file or writing to it raises). *)
Record Env := {
  host : Commands.Host;
  gpt : gpt_outcome;
  tts_env : TTS.Env;
  jsonl_append : string -> string -> bool
}.

Record Assistant := {
  cfg : Config;
  gpt_enabled : bool;
  jsonl_path : option string;
  tts_engine : TTS.TTSEngine
}.

Definition set_tts_engine (t : TTS.TTSEngine) (self : Assistant) : Assistant :=
  {| cfg := cfg self; gpt_enabled := gpt_enabled self;
     jsonl_path := jsonl_path self; tts_engine := t |}.

Definition apology : string := "Sorry, I couldn’t reach GPT right now.".
Definition not_understood : string := "I don’t understand. Please try again.".

(** The outcome of a call that may raise. *)
Inductive outcome (A : Type) :=
| Returns (a : A)
| Raises (error : string).
Arguments Returns {A} a.
Arguments Raises {A} error.

Section WithBuiltins.

Context `{py : Builtins}.

(** [query_gpt(text)] *)
Definition query_gpt (text : string) (env : Env) : outcome string :=
  match gpt env with
  | GptReply content => Returns (strip content)
  | GptRaises e => Raises e
  end.

(** [log_jsonl(role, text)]: a line is appended unless no path is set
    or the file cannot be written, which the code only warns about. *)
Definition log_jsonl (self : Assistant) (env : Env) (role text : string)
  : list effect :=
  match jsonl_path self with
  | Some path =>
      if truthy path then
        if jsonl_append env role text then [AuditLine path role text] else []
      else []
  | None => []
  end.

(** [emit(event)] *)
Definition emit (e : event) : list effect := [Emit e].

(** [route_command(text)]: the string returned, with the effects. *)
Definition route_command (self : Assistant) (text : string) (env : Env)
  : outcome string * list effect :=
  let '(handled, resp, acts) := Commands.handle_command text (cfg self) (host env) in
  if handled then (Returns resp, map Os acts)
  else if gpt_enabled self then
    match query_gpt text env with
    | Returns answer => (Returns answer, map Os acts ++ [GptRequest text])
    | Raises _ => (Returns apology, map Os acts ++ [GptRequest text])
    end
  else (Returns not_understood, map Os acts).

Section Platform.

Variable hash : string -> Z.
Variable path_join : string -> string -> string.

Definition state : Type := Assistant * gset string.

(** [speak(text)] *)
Definition speak (self : Assistant) (files : gset string) (text : string)
           (env : Env) : state * list effect :=
  let '(t, files', acts) :=
    TTS.say hash path_join (tts_engine self) files text (tts_env env) in
  (set_tts_engine t self, files', map Tts acts).

(** [handle_user_text(text)] *)
Definition handle_user_text (self : Assistant) (files : gset string)
           (text : string) (env : Env) : state * list effect :=
  let pre := emit (transcript "user" text) ++ log_jsonl self env "user" text in
  match route_command self text env with
  | (Returns response, routed) =>
      if truthy response then
        let '(st, spoken) := speak self files response env in
        (st, pre ++ routed ++ spoken
             ++ emit (transcript "assistant" response)
             ++ log_jsonl self env "assistant" response)
      else ((self, files), pre ++ routed)
  | (Raises _, routed) => ((self, files), pre ++ routed)
  end.

Definition wake_word_of (c : Config) : string :=
  lower (default "crux" (app_wake_word c)).

(** [on_stt_result(text)] *)
Definition on_stt_result (self : Assistant) (files : gset string)
           (text : string) (env : Env) : state * list effect :=
  if negb (truthy text) then ((self, files), [])
  else
    let text_lower := lower (strip text) in
    let wake_word := wake_word_of (cfg self) in
    if contains wake_word text_lower then
      let heard := emit (log ("Heard wake word: " +:+ wake_word)) in
      let text_lower := strip (replace wake_word "" text_lower) in
      if negb (truthy text_lower) then ((self, files), heard)
      else
        let '(st, effs) := handle_user_text self files text_lower env in
        (st, heard ++ effs)
    else handle_user_text self files text_lower env.

End Platform.

End WithBuiltins.

(** The text of a user transcript event: what was passed on for
    routing. *)
Definition routed_text (x : effect) : option string :=
  match x with
  | Emit (transcript role t) => if role =? "user" then Some t else None
  | _ => None
  end.

Definition routed_texts (l : list effect) : list string :=
  omap routed_text l.

End Assistant.

(** ** tts.py: construction and shutdown *)

Module TTSSetup.

(** The keys of the sections [tts] and [paths] of the configuration that
    the constructor reads into the fields modelled in [TTS.TTSEngine]. *)
Record Sections := {
  tts_mode : option string;
  paths_tts_cache_dir : option string;
  tts_gtts_lang_map : option (gmap string string)
}.

(** What the constructor finds: whether pyttsx3 could be imported and,
    if so, the handle that [pyttsx3.init()] and the calls setting it up
    give ([None] when one of them raises). *)
Record Env := {
  pyttsx3 : bool;
  init_engine : option nat
}.

Inductive setup_action :=
| Makedirs (path : string)
| Pyttsx3Init
| InitialVoice (lang : string).

Section Platform.

(** [os.path.expanduser] *)
Variable expanduser : string -> string.

(** [TTSEngine.__init__(cfg)] *)
Definition __init__ (cfg : Config) (sections : Sections) (env : Env)
  : TTS.TTSEngine * list setup_action :=
  let mode := default "offline" (tts_mode sections) in
  let lang_pref := default "en" (app_language_preference cfg) in
  let tts_cache_dir :=
    expanduser (default "./runtime/tts_cache" (paths_tts_cache_dir sections)) in
  let gtts_lang_map :=
    default {[ "en" := "en"; "ta" := "ta" ]} (tts_gtts_lang_map sections) in
  let made := [Makedirs tts_cache_dir] in
  if (mode =? "offline") && pyttsx3 env then
    match init_engine env with
    | Some h =>
        ({| TTS.mode := mode; TTS.lang_pref := lang_pref;
            TTS.engine := Some h; TTS.tts_cache_dir := tts_cache_dir;
            TTS.gtts_lang_map := gtts_lang_map |},
         made ++ [Pyttsx3Init; InitialVoice lang_pref])
    | None =>
        ({| TTS.mode := "online"; TTS.lang_pref := lang_pref;
            TTS.engine := None; TTS.tts_cache_dir := tts_cache_dir;
            TTS.gtts_lang_map := gtts_lang_map |},
         made ++ [Pyttsx3Init])
    end
  else if (mode =? "offline") && negb (pyttsx3 env) then
    ({| TTS.mode := "online"; TTS.lang_pref := lang_pref;
        TTS.engine := None; TTS.tts_cache_dir := tts_cache_dir;
        TTS.gtts_lang_map := gtts_lang_map |}, made)
  else
    ({| TTS.mode := mode; TTS.lang_pref := lang_pref;
        TTS.engine := None; TTS.tts_cache_dir := tts_cache_dir;
        TTS.gtts_lang_map := gtts_lang_map |}, made).

End Platform.

(** A run of [say] calls on one engine: each call with its text and
    with what the outside answers during it. *)
Fixpoint say_all (hash : string -> Z) (path_join : string -> string -> string)
         (self : TTS.TTSEngine) (files : gset string)
         (calls : list (string * TTS.Env)) : TTS.result :=
  match calls with
  | [] => (self, files, [])
  | (text, env) :: rest =>
      let '(self1, files1, acts1) := TTS.say hash path_join self files text env in
      let '(self2, files2, acts2) := say_all hash path_join self1 files1 rest in
      (self2, files2, acts1 ++ acts2)
  end.

(** Kinds of actions, for counting them in a trace. *)
Definition is_engine_say (a : TTS.tts_action) : bool :=
  match a with TTS.EngineSay _ _ => true | _ => false end.

Definition is_engine_init (a : TTS.tts_action) : bool :=
  match a with TTS.EngineInit => true | _ => false end.

Definition is_gtts_synth (a : TTS.tts_action) : bool :=
  match a with TTS.GttsSynth _ _ => true | _ => false end.

Definition is_playsound (a : TTS.tts_action) : bool :=
  match a with TTS.Playsound _ => true | _ => false end.

(** The actions of the offline engine, as opposed to those of the
    online path. *)
Definition is_engine_action (a : TTS.tts_action) : bool :=
  match a with
  | TTS.PickVoice _ | TTS.EngineSay _ _ | TTS.EngineInit => true
  | _ => false
  end.

(** What holds of an engine once constructed: offline mode comes with an
    engine handle. *)
Definition offline_has_engine (self : TTS.TTSEngine) : Prop :=
  TTS.mode self = "offline" -> is_Some (TTS.engine self).

Definition count (f : TTS.tts_action -> bool) (l : list TTS.tts_action) : nat :=
  length (List.filter f l).

End TTSSetup.

(** ** speech.py *)

Module Speech.

Import Assistant.

(** The keys of the section [stt] of the configuration read by the
    speech engine.  A subsection that may be missing is an [option];
    [stt_whisper] holds the key [model] of the subsection [whisper] and
    [stt_vosk] the subsection [vosk] as a table.  The sections [stt] and
    [app] themselves are taken to be present. *)
Record Section_stt := {
  stt_mode : option string;
  stt_preferred_offline_engine : option string;
  stt_whisper : option (option string);
  stt_vosk : option (gmap string string)
}.

(** The fields of a [SpeechEngine] that recognition and the listening
    switch read or write: the two model handles are [None] when no model
    is loaded, [thread] tells whether a thread object is held. *)
Record SpeechEngine := {
  offline_mode : bool;
  offline_engine : string;
  whisper_model : option nat;
  vosk_model : option nat;
  running : bool;
  thread : bool
}.

(** What the constructor finds: whether the modules whisper and vosk
    could be imported, what loading a model gives ([None] when it
    raises) and [os.path.isdir]. *)
Record LoadEnv := {
  whisper : bool;
  vosk : bool;
  load_model : string -> option nat;
  isdir : string -> bool;
  Model : string -> option nat
}.

(** [SpeechEngine.__init__(cfg, callback)] *)
Definition __init__ (cfg : Config) (stt : Section_stt) (env : LoadEnv)
  : outcome SpeechEngine :=
  let offline_mode := default "offline" (stt_mode stt) =? "offline" in
  let offline_engine := default "whisper" (stt_preferred_offline_engine stt) in
  let made (w v : option nat) :=
    {| offline_mode := offline_mode; offline_engine := offline_engine;
       whisper_model := w; vosk_model := v;
       running := false; thread := false |} in
  if offline_mode then
    if (offline_engine =? "whisper") && whisper env then
      match stt_whisper stt with
      | None => Raises "KeyError: 'whisper'"
      | Some model =>
          let model_size := default "base" model in
          Returns (made (load_model env model_size) None)
      end
    else if (offline_engine =? "vosk") && vosk env then
      let lang := default "en" (app_language_preference cfg) in
      match stt_vosk stt with
      | None => Raises "KeyError: 'vosk'"
      | Some table =>
          let model_path :=
            default "./models/vosk"
              (table !! ("model_path_" +:+ (if lang =? "en" then "en" else "ta"))) in
          if isdir env model_path
          then Returns (made None (Model env model_path))
          else Returns (made None None)
      end
    else Returns (made None None)
  else Returns (made None None).

(** How [recognizer.recognize_google] ends. *)
Inductive google_outcome :=
| GoogleText (text : string)
| UnknownValueError
| RequestError (error : string)
| GoogleRaises (error : string).

(** How the steps before [transcribe] end in the Whisper branch: all
    is ready; or reading the audio, one of the imports made inside the
    function or the creation of the temporary file raises, so that no
    file exists; or writing the audio to the temporary file raises,
    which leaves the file behind. *)
Inductive prepare_outcome :=
| Prepared
| RaisesBeforeFile (error : string)
| RaisesInWrite (error : string).

(** What the outside answers during one recognition: the end of the
    preparation for Whisper, the ["text"] entry of the result of Whisper
    ([None] when the entry is missing) or the exception of
    [transcribe], the ["text"] entry of the parsed result of Vosk, and
    the end of the hosted recognition. *)
Record Env := {
  prepare : prepare_outcome;
  transcribe : outcome (option string);
  vosk_text : option string;
  recognize_google : google_outcome
}.

(** [TmpWrite] is the creation of the temporary file with the writing
    of the audio to it, [TmpRemove] the call of [os.remove] on it. *)
Inductive stt_action :=
| TmpWrite
| WhisperTranscribe (language : option string)
| TmpRemove
| VoskAccept
| GoogleRequest (language : string).

(** [_recognize_google(audio, lang)] *)
Definition _recognize_google (lang : string) (env : Env)
  : outcome string * list stt_action :=
  let language := if lang =? "ta" then "ta-IN" else "en-US" in
  match recognize_google env with
  | GoogleText text => (Returns text, [GoogleRequest language])
  | UnknownValueError => (Returns "", [GoogleRequest language])
  | RequestError _ => (Returns "", [GoogleRequest language])
  | GoogleRaises e => (Raises e, [GoogleRequest language])
  end.

Section WithBuiltins.

Context `{py : Builtins}.

(** [recognize(audio)]; [jsonlib] tells whether the module json was
    imported next to vosk. *)
Definition recognize (self : SpeechEngine) (cfg : Config) (jsonlib : bool)
           (env : Env) : outcome string * list stt_action :=
  let lang := default "en" (app_language_preference cfg) in
  if offline_mode self then
    if (offline_engine self =? "whisper")
       && bool_decide (is_Some (whisper_model self)) then
      let language := if lang =? "ta" then None else Some "en" in
      match prepare env with
      | RaisesBeforeFile e => (Raises e, [])
      | RaisesInWrite e => (Raises e, [TmpWrite])
      | Prepared =>
          match transcribe env with
          | Returns result =>
              (Returns (strip (default "" result)),
               [TmpWrite; WhisperTranscribe language; TmpRemove])
          | Raises e =>
              (Raises e, [TmpWrite; WhisperTranscribe language; TmpRemove])
          end
      end
    else if (offline_engine self =? "vosk")
            && bool_decide (is_Some (vosk_model self)) then
      if jsonlib
      then (Returns (strip (default "" (vosk_text env))), [VoskAccept])
      else (Returns "", [VoskAccept])
    else _recognize_google lang env
  else _recognize_google lang env.

End WithBuiltins.

(** [start_listening()] and [stop_listening()] of the speech engine,
    with the threads started and joined. *)
Inductive thread_action := ThreadStart | ThreadJoin.

Definition set_running (r t : bool) (self : SpeechEngine) : SpeechEngine :=
  {| offline_mode := offline_mode self; offline_engine := offline_engine self;
     whisper_model := whisper_model self; vosk_model := vosk_model self;
     running := r; thread := t |}.

Definition start_listening (self : SpeechEngine)
  : SpeechEngine * list thread_action :=
  if running self then (self, [])
  else (set_running true true self, [ThreadStart]).

Definition stop_listening (self : SpeechEngine)
  : SpeechEngine * list thread_action :=
  (set_running false (thread self) self,
   if thread self then [ThreadJoin] else []).

(** [shutdown()] *)
Definition shutdown (self : SpeechEngine) : SpeechEngine * list thread_action :=
  stop_listening self.

(** How [recognizer.listen] ends in one round of the listening loop. *)
Inductive listen_outcome := Audio | WaitTimeoutError | MicError.

(** What one round of the loop makes happen: actions of the
    recognition, then effects of the callback. *)
Inductive loop_effect :=
| Stt (a : stt_action)
| Called (x : effect).

Section Loop.

Context `{py : Builtins}.

Variable hash : string -> Z.
Variable path_join : string -> string -> string.

(** The body of the [while] of [_listen_loop], with
    [Assistant.on_stt_result] as the callback. *)
Definition listen_round (self : SpeechEngine) (jsonlib : bool)
           (assistant : Assistant) (files : gset string)
           (heard : listen_outcome) (env : Env) (aenv : Assistant.Env)
  : state * list loop_effect :=
  match heard with
  | WaitTimeoutError => ((assistant, files), [])
  | MicError => ((assistant, files), [])
  | Audio =>
      match recognize self (cfg assistant) jsonlib env with
      | (Returns text, acts) =>
          if truthy text then
            let '(st, effs) := on_stt_result hash path_join assistant files text aenv in
            (st, map Stt acts ++ map Called effs)
          else ((assistant, files), map Stt acts)
      | (Raises _, acts) => ((assistant, files), map Stt acts)
      end
  end.

End Loop.

Definition is_called (x : loop_effect) : bool :=
  match x with Called _ => true | _ => false end.

End Speech.

(** ** assistant.py: construction and the listening switch *)

Module Control.

Import Assistant.

(** The keys of the section [gpt] of the configuration read by the
    constructor. *)
Record Section_gpt := {
  gpt_enabled_key : option bool;
  gpt_api_key : option string;
  gpt_env_api_key : option string
}.

(** The value given to [gpt_enabled] by [Assistant.__init__]; [environ]
    is [os.environ]. *)
Definition init_gpt_enabled (gpt_cfg : Section_gpt)
           (environ : string -> option string) : bool :=
  if default false (gpt_enabled_key gpt_cfg) then
    let api_key :=
      if truthy (default "" (gpt_api_key gpt_cfg))
      then default "" (gpt_api_key gpt_cfg)
      else default ""
             (environ (default "OPENAI_API_KEY" (gpt_env_api_key gpt_cfg))) in
    if truthy api_key then true else false
  else false.

(** The fields of the assistant behind the microphone switch. *)
Record Mic := {
  listening : bool;
  stt_engine : Speech.SpeechEngine
}.

Inductive control_effect :=
| Event (e : event)
| Thread (a : Speech.thread_action)
| EngineStop (handle : nat).

(** [start_listening()] *)
Definition start_listening (self : Mic) : Mic * list control_effect :=
  if listening self then (self, [])
  else
    let '(stt, acts) := Speech.start_listening (stt_engine self) in
    ({| listening := true; stt_engine := stt |},
     map Thread acts ++ [Event (status "Listening...")]).

(** [stop_listening()] *)
Definition stop_listening (self : Mic) : Mic * list control_effect :=
  if negb (listening self) then (self, [])
  else
    let '(stt, acts) := Speech.stop_listening (stt_engine self) in
    ({| listening := false; stt_engine := stt |},
     map Thread acts ++ [Event (status "Mic muted")]).

(** [TTSEngine.shutdown()] *)
Definition tts_shutdown (t : TTS.TTSEngine) : list control_effect :=
  match TTS.engine t with
  | Some h => [EngineStop h]
  | None => []
  end.

(** [shutdown()] *)
Definition shutdown (self : Mic) (t : TTS.TTSEngine)
  : Mic * list control_effect :=
  let '(m1, e1) := stop_listening self in
  let '(stt, acts) := Speech.shutdown (stt_engine m1) in
  ({| listening := listening m1; stt_engine := stt |},
   e1 ++ map Thread acts ++ tts_shutdown t).

(** [on_gui_mic_toggle(enable)] of main.py *)
Definition on_gui_mic_toggle (self : Mic) (enable : bool)
  : Mic * list control_effect :=
  if enable then start_listening self else stop_listening self.

(** A run of microphone toggles. *)
Fixpoint toggles (self : Mic) (enables : list bool) : Mic * list control_effect :=
  match enables with
  | [] => (self, [])
  | enable :: rest =>
      let '(m1, e1) := on_gui_mic_toggle self enable in
      let '(m2, e2) := toggles m1 rest in
      (m2, e1 ++ e2)
  end.

(** The status messages of a trace, in order. *)
Definition status_of (x : control_effect) : option string :=
  match x with Event (status m) => Some m | _ => None end.

Definition statuses (l : list control_effect) : list string := omap status_of l.

Definition is_thread_start (x : control_effect) : bool :=
  match x with Thread Speech.ThreadStart => true | _ => false end.

(** A list of status messages that takes turns between "Listening..."
    and "Mic muted"; [on] tells which of the two is due first. *)
Fixpoint takes_turns (on : bool) (l : list string) : bool :=
  match l with
  | [] => true
  | m :: l' =>
      (m =? (if on then "Listening..." else "Mic muted"))
      && takes_turns (negb on) l'
  end.

(** The transcript events of a trace, as role and text, the lines
    appended to the JSON-lines file at [path], and the texts sent to the
    hosted model. *)
Definition transcript_of (x : effect) : option (string * string) :=
  match x with Emit (transcript role text) => Some (role, text) | _ => None end.

Definition audit_of (path : string) (x : effect) : option (string * string) :=
  match x with
  | AuditLine p role text => if p =? path then Some (role, text) else None
  | _ => None
  end.

Definition gpt_request_of (x : effect) : option string :=
  match x with GptRequest text => Some text | _ => None end.

Definition transcripts (l : list effect) : list (string * string) :=
  omap transcript_of l.

Definition audit_lines (path : string) (l : list effect)
  : list (string * string) :=
  omap (audit_of path) l.

Definition gpt_requests (l : list effect) : list string := omap gpt_request_of l.

(** Whether the line for a transcript entry can be appended to the
    JSON-lines file. *)
Definition appended (env : Assistant.Env) (entry : string * string) : bool :=
  Assistant.jsonl_append env (fst entry) (snd entry).

End Control.

(** ** gui.py: escaping of the text shown in the transcript *)

Module Gui.

(** [_html_escape(text)] *)
Definition _html_escape (text : string) : string :=
  replace Commands.nl "<br>"
    (replace ">" "&gt;" (replace "<" "&lt;" (replace "&" "&amp;" text))).

(** What becomes of one character. *)
Definition escape_char (c : ascii) : string :=
  if Ascii.eqb c "&" then "&amp;"
  else if Ascii.eqb c "<" then "&lt;"
  else if Ascii.eqb c ">" then "&gt;"
  else if Ascii.eqb c (ascii_of_nat 10) then "<br>"
  else String c EmptyString.

(** The escaping made in one pass, character by character. *)
Fixpoint escape_each (text : string) : string :=
  match text with
  | EmptyString => EmptyString
  | String c text' => escape_char c +:+ escape_each text'
  end.

(** Every occurrence of the character [c] replaced by [new]. *)
Fixpoint substitute (c : ascii) (new text : string) : string :=
  match text with
  | EmptyString => EmptyString
  | String x text' =>
      (if Ascii.eqb x c then new else String x EmptyString)
      +:+ substitute c new text'
  end.

(** How often a character occurs in a text. *)
Fixpoint occurrences (c : ascii) (text : string) : nat :=
  match text with
  | EmptyString => 0
  | String x text' => (if Ascii.eqb x c then 1 else 0) + occurrences c text'
  end.

End Gui.

(** ** ASCII text

    What [str.lower] and [str.strip] compute on a text made of ASCII
    characters only.  The examples are such texts; they are evaluated
    with these two functions for the methods of [Builtins]. *)

Module AsciiText.

Definition is_upper (c : ascii) : bool :=
  let n := nat_of_ascii c in (65 <=? n)%nat && (n <=? 90)%nat.

Definition lower_char (c : ascii) : ascii :=
  if is_upper c then ascii_of_nat (nat_of_ascii c + 32) else c.

(** [str.lower] on a text of ASCII characters *)
Fixpoint lower (s : string) : string :=
  match s with
  | EmptyString => EmptyString
  | String c s' => String (lower_char c) (lower s')
  end.

(** [str.isspace] on one character: tab to carriage return, the four
    separators 0x1c-0x1f and the blank. *)
Definition isspace (c : ascii) : bool :=
  let n := nat_of_ascii c in
  ((9 <=? n)%nat && (n <=? 13)%nat) || ((28 <=? n)%nat && (n <=? 32)%nat).

Fixpoint lstrip (s : string) : string :=
  match s with
  | EmptyString => EmptyString
  | String c s' => if isspace c then lstrip s' else s
  end.

Fixpoint rstrip (s : string) : string :=
  match s with
  | EmptyString => EmptyString
  | String c s' =>
      match rstrip s' with
      | EmptyString => if isspace c then EmptyString else String c EmptyString
      | r => String c r
      end
  end.

(** [str.strip] without argument on a text of ASCII characters *)
Definition strip (s : string) : string := rstrip (lstrip s).

End AsciiText.

Definition ascii_text : Builtins :=
  {| lower := AsciiText.lower; strip := AsciiText.strip |}.

(** ** Fixtures

    Concrete configurations, machines and engines used by the examples. *)

Module Fixtures.

(** A configuration in the documented shape. *)
Definition notepad_cfg : Config :=
  {| app_wake_word := Some "crux";
     app_language_preference := Some "en";
     apps := {[ "notepad" := "notepad.exe" ]};
     allow_shutdown := None;
     music_path := None |}.

(** A machine without volume or brightness control. *)
Definition bare_host : Commands.Host :=
  {| Commands.AudioUtilities := None;
     Commands.sbc := None;
     Commands.path_exists := fun _ => false |}.

(** A machine with volume control at half level. *)
Definition audio_host : Commands.Host :=
  {| Commands.AudioUtilities := Some (1 # 2);
     Commands.sbc := None;
     Commands.path_exists := fun _ => false |}.

(** A stand-in for Python's string hash, with negative values, and
    a two-component [os.path.join]. *)
Definition toy_hash (s : string) : Z := - Z.of_nat (String.length s).

Definition slash_join (dir name : string) : string := dir +:+ "/" +:+ name.

Definition offline_engine : TTS.TTSEngine :=
  {| TTS.mode := "offline"; TTS.lang_pref := "en"; TTS.engine := Some 0%nat;
     TTS.tts_cache_dir := "./runtime/tts_cache";
     TTS.gtts_lang_map := {[ "en" := "en"; "ta" := "ta" ]} |}.

Definition online_engine : TTS.TTSEngine :=
  {| TTS.mode := "online"; TTS.lang_pref := "en"; TTS.engine := None;
     TTS.tts_cache_dir := "./runtime/tts_cache";
     TTS.gtts_lang_map := {[ "en" := "en"; "ta" := "ta" ]} |}.

(** Everything works. *)
Definition fair_env : TTS.Env :=
  {| TTS.cfg_language := Some "en"; TTS.first_run := TTS.Spoken;
     TTS.reinit := Some 1%nat; TTS.second_run := true;
     TTS.gtts_save := TTS.Saved |}.

(** The offline engine fails, also after being set up again. *)
Definition sapi_down_env : TTS.Env :=
  {| TTS.cfg_language := Some "en"; TTS.first_run := TTS.RaisesRuntimeError;
     TTS.reinit := Some 1%nat; TTS.second_run := false;
     TTS.gtts_save := TTS.Saved |}.

(** The request of the hosted synthesis fails, or gTTS finds nothing
    to speak in the text: [save] raises with the file open. *)
Definition network_down_env : TTS.Env :=
  {| TTS.cfg_language := Some "en"; TTS.first_run := TTS.Spoken;
     TTS.reinit := Some 1%nat; TTS.second_run := true;
     TTS.gtts_save := TTS.RaisesAfterOpen |}.

Definition blank_text_env : TTS.Env := network_down_env.

(** A language map that sends "en" to a code gTTS does not know: the
    constructor of [gTTS] raises [ValueError], at every call. *)
Definition mislabelled_engine : TTS.TTSEngine :=
  {| TTS.mode := "online"; TTS.lang_pref := "en"; TTS.engine := None;
     TTS.tts_cache_dir := "./runtime/tts_cache";
     TTS.gtts_lang_map := {[ "en" := "english" ]} |}.

Definition unknown_language_env : TTS.Env :=
  {| TTS.cfg_language := Some "en"; TTS.first_run := TTS.Spoken;
     TTS.reinit := Some 1%nat; TTS.second_run := true;
     TTS.gtts_save := TTS.RaisesBeforeOpen |}.

Definition crux : Assistant.Assistant :=
  {| Assistant.cfg := notepad_cfg;
     Assistant.gpt_enabled := false;
     Assistant.jsonl_path := Some "./logs/crux.jsonl";
     Assistant.tts_engine := online_engine |}.

Definition crux_with_gpt : Assistant.Assistant :=
  {| Assistant.cfg := notepad_cfg;
     Assistant.gpt_enabled := true;
     Assistant.jsonl_path := Some "./logs/crux.jsonl";
     Assistant.tts_engine := online_engine |}.

(** The hosted model cannot be reached. *)
Definition gpt_down_env : Assistant.Env :=
  {| Assistant.host := bare_host;
     Assistant.gpt := Assistant.GptRaises "Connection error.";
     Assistant.tts_env := fair_env;
     Assistant.jsonl_append := fun _ _ => true |}.

(** A configuration that allows shutdown and names a music file, and a
    machine on which that file exists. *)
Definition power_cfg : Config :=
  {| app_wake_word := Some "crux";
     app_language_preference := Some "en";
     apps := {[ "notepad" := "notepad.exe" ]};
     allow_shutdown := Some true;
     music_path := Some "C:/Music/mix.mp3" |}.

Definition music_host : Commands.Host :=
  {| Commands.AudioUtilities := None;
     Commands.sbc := None;
     Commands.path_exists := fun p => p =? "C:/Music/mix.mp3" |}.

(** The language preference was switched to Tamil. *)
Definition tamil_env : TTS.Env :=
  {| TTS.cfg_language := Some "ta"; TTS.first_run := TTS.Spoken;
     TTS.reinit := Some 1%nat; TTS.second_run := true;
     TTS.gtts_save := TTS.Saved |}.

(** The sections [tts] and [paths] left empty, and a machine on which
    pyttsx3 works. *)
Definition default_sections : TTSSetup.Sections :=
  {| TTSSetup.tts_mode := None;
     TTSSetup.paths_tts_cache_dir := None;
     TTSSetup.tts_gtts_lang_map := None |}.

Definition sapi_env : TTSSetup.Env :=
  {| TTSSetup.pyttsx3 := true; TTSSetup.init_engine := Some 0%nat |}.

(** The JSON-lines file cannot be written. *)
Definition read_only_log_env : Assistant.Env :=
  {| Assistant.host := bare_host;
     Assistant.gpt := Assistant.GptRaises "Connection error.";
     Assistant.tts_env := fair_env;
     Assistant.jsonl_append := fun _ _ => false |}.

(** A [gpt] section that enables the model but names no key, and an
    environment without the variable. *)
Definition keyless_gpt : Control.Section_gpt :=
  {| Control.gpt_enabled_key := Some true;
     Control.gpt_api_key := None;
     Control.gpt_env_api_key := None |}.

Definition empty_environ : string -> option string := fun _ => None.

(** An [stt] section asking for Vosk, with the English model in place. *)
Definition vosk_stt : Speech.Section_stt :=
  {| Speech.stt_mode := Some "offline";
     Speech.stt_preferred_offline_engine := Some "vosk";
     Speech.stt_whisper := None;
     Speech.stt_vosk := Some {[ "model_path_en" := "./models/vosk-en" ]} |}.

Definition vosk_load_env : Speech.LoadEnv :=
  {| Speech.whisper := false;
     Speech.vosk := true;
     Speech.load_model := fun _ => None;
     Speech.isdir := fun p => p =? "./models/vosk-en";
     Speech.Model := fun _ => Some 7%nat |}.

Definition vosk_engine : Speech.SpeechEngine :=
  {| Speech.offline_mode := true; Speech.offline_engine := "vosk";
     Speech.whisper_model := None; Speech.vosk_model := Some 7%nat;
     Speech.running := false; Speech.thread := false |}.

(** An engine without a model, as in online mode. *)
Definition hosted_engine : Speech.SpeechEngine :=
  {| Speech.offline_mode := false; Speech.offline_engine := "whisper";
     Speech.whisper_model := None; Speech.vosk_model := None;
     Speech.running := false; Speech.thread := false |}.

(** The recognition hears "Crux open notepad"; or the hosted
    recognition understands nothing. *)
Definition heard_env : Speech.Env :=
  {| Speech.prepare := Speech.Prepared;
     Speech.transcribe := Assistant.Returns None;
     Speech.vosk_text := Some " open notepad ";
     Speech.recognize_google := Speech.GoogleText "Crux open notepad" |}.

Definition mumble_env : Speech.Env :=
  {| Speech.prepare := Speech.Prepared;
     Speech.transcribe := Assistant.Returns None;
     Speech.vosk_text := None;
     Speech.recognize_google := Speech.UnknownValueError |}.

(** The microphone switch off. *)
Definition mic_off : Control.Mic :=
  {| Control.listening := false; Control.stt_engine := hosted_engine |}.


End Fixtures.

Import Fixtures.

(** * Properties *)

(** ** Strings *)

Section StringFacts.

#[local] Arguments String.append !s1 s2 : simpl nomatch.

Lemma ascii_eq_dec_refl (c : ascii) (A : Type) (x y : A) :
  (if ascii_dec c c then x else y) = x.
Proof. destruct (ascii_dec c c); congruence. Qed.

Lemma startswith_append (p r : string) : startswith p (p +:+ r) = true.
Proof.
  unfold startswith. induction p as [|x p IH]; simpl.
  - now destruct r.
  - now rewrite ascii_eq_dec_refl.
Qed.

Lemma startswith_split (p s : string) :
  startswith p s = true -> s = p +:+ drop (String.length p) s.
Proof.
  unfold startswith. revert s. induction p as [|x p IH]; intros s H; simpl.
  - now destruct s.
  - destruct s as [|y s]; simpl in H; [discriminate|].
    destruct (ascii_dec x y) as [->|]; [|discriminate].
    f_equal. now apply IH.
Qed.

Lemma startswith_empty (s : string) : startswith "" s = true.
Proof. now destruct s. Qed.

(** Passing over the characters of a match resumes the scan after
    it. *)
Lemma replace_scan_skip (old new x b : string) :
  replace_scan old new (String.length x) (x +:+ b) = replace_scan old new 0 b.
Proof.
  induction x as [|c x IH]; simpl.
  - destruct b; reflexivity.
  - exact IH.
Qed.

Lemma replace_scan_match (old new b : string) :
  old <> "" ->
  replace_scan old new 0 (old +:+ b) = new +:+ replace_scan old new 0 b.
Proof.
  intros Hne. destruct old as [|c old]; [congruence|].
  change (String c old +:+ b) with (String c (old +:+ b)).
  cbn [replace_scan].
  change (String c (old +:+ b)) with (String c old +:+ b).
  rewrite startswith_append.
  replace (String.length (String c old) - 1)%nat with (String.length old)
    by (simpl; lia).
  now rewrite replace_scan_skip.
Qed.

Lemma replace_scan_step (old new : string) (c : ascii) (s : string) :
  startswith old (String c s) = false ->
  replace_scan old new 0 (String c s) = String c (replace_scan old new 0 s).
Proof. intros H. cbn [replace_scan]. now rewrite H. Qed.

(** [replace] removes a leading occurrence and goes on after it. *)
Lemma replace_match (old new b : string) :
  old <> "" -> replace old new (old +:+ b) = new +:+ replace old new b.
Proof.
  intros Hne. unfold replace. destruct old as [|c old]; [congruence|].
  now apply replace_scan_match.
Qed.

Lemma find_none_tail (sub : string) (c : ascii) (s : string) :
  find sub (String c s) = None ->
  startswith sub (String c s) = false /\ find sub s = None.
Proof.
  cbn [find]. destruct (startswith sub (String c s)); [discriminate|].
  destruct (find sub s); [discriminate | auto].
Qed.

(** Without an occurrence, [replace] changes nothing. *)
Lemma replace_absent (old new s : string) :
  find old s = None -> replace old new s = s.
Proof.
  intros H. unfold replace. destruct old as [|c0 old].
  - destruct s; discriminate.
  - induction s as [|c s IH]; [reflexivity|].
    apply find_none_tail in H as [Hp Hf].
    rewrite replace_scan_step by exact Hp. now rewrite IH.
Qed.

(** At the first occurrence, [replace] keeps what comes before it,
    puts [new] for it and treats the rest of the text the same way. *)
Lemma replace_first (old new s : string) (n : nat) :
  old <> "" ->
  find old s = Some n ->
  replace old new s
  = take n s +:+ new +:+ replace old new (drop (n + String.length old) s).
Proof.
  intros Hne. revert n. induction s as [|c s IH]; intros n H.
  - cbn [find] in H. destruct (startswith old "") eqn:Hp; [|discriminate].
    destruct old; [congruence | discriminate].
  - cbn [find] in H. destruct (startswith old (String c s)) eqn:Hp.
    + injection H as <-. simpl take. simpl plus.
      rewrite (startswith_split _ _ Hp) at 1.
      rewrite replace_match by exact Hne. reflexivity.
    + destruct (find old s) as [k|] eqn:Hf; [|discriminate].
      injection H as <-. simpl.
      unfold replace in *. destruct old as [|c0 old]; [congruence|].
      rewrite replace_scan_step by exact Hp.
      now rewrite (IH k eq_refl).
Qed.

Example lower_ex : AsciiText.lower "Open NotePad" = "open notepad".
Proof. reflexivity. Qed.

Example strip_ex : AsciiText.strip "  crux  open  " = "crux  open".
Proof. reflexivity. Qed.

Example replace_ex : replace "open " "" "open open office" = "office".
Proof. reflexivity. Qed.

Example replace_overlap_ex : replace "aa" "b" "aaaaa" = "bba".
Proof. reflexivity. Qed.

Example replace_empty_ex : replace "" "-" "abc" = "-a-b-c-".
Proof. reflexivity. Qed.

Example replace_rejoined_ex : replace "crux" "" "crcruxux" = "crux".
Proof. reflexivity. Qed.

Example find_ex : find "crux" "hey crux" = Some 4%nat.
Proof. reflexivity. Qed.

Example str_of_Z_ex : str_of_Z (Z.abs (-1203)) = "1203".
Proof. reflexivity. Qed.

End StringFacts.

(** ** Built-in commands *)

Section CommandFacts.

Import Commands.

Context `{py : Builtins}.

#[local] Arguments String.append !s1 s2 : simpl nomatch.

Lemma contains_false_find (sub s : string) :
  contains sub s = false -> find sub s = None.
Proof. unfold contains. destruct (find sub s); [discriminate | reflexivity]. Qed.

(** When the text after a leading occurrence holds no further one,
    [replace] leaves exactly that text. *)
Lemma replace_prefix_only (p s : string) :
  p <> "" ->
  startswith p s = true ->
  contains p (drop (String.length p) s) = false ->
  replace p "" s = drop (String.length p) s.
Proof.
  intros Hne Hp Hc. rewrite (startswith_split _ _ Hp) at 1.
  rewrite replace_match by exact Hne.
  now rewrite (replace_absent _ _ _ (contains_false_find _ _ Hc)).
Qed.

Lemma open_not_search (s : string) :
  startswith "search " s = true -> startswith "open " s = false.
Proof. intros H. now rewrite (startswith_split _ _ H). Qed.

(** The lowercased text routed by the open rule. *)
Lemma handle_command_open (command : string) (cfg : Config) (host : Host) :
  startswith "open " (lower command) = true ->
  handle_command command cfg host =
    let app := replace "open " "" (lower command) in
    match apps cfg !! app with
    | Some launch => (true, "Opening " +:+ app +:+ ".", [Popen launch])
    | None => (true, "App " +:+ app +:+ " not found in config.", [])
    end.
Proof. intros H. unfold handle_command. now rewrite H. Qed.

Lemma handle_command_search (command : string) (cfg : Config) (host : Host) :
  startswith "search " (lower command) = true ->
  handle_command command cfg host =
    let query := replace "search " "" (lower command) in
    (true, "Searching the web for " +:+ query +:+ ".",
     [WebbrowserOpen ("https://www.google.com/search?q=" +:+ query)]).
Proof.
  intros H. unfold handle_command.
  now rewrite (open_not_search _ H), H.
Qed.

(** C1, as the code has it: a command whose lowercase form begins with
    "open " is always handled; when the lowercase remainder holds no
    further "open ", that remainder is the app key, the response is
    "Opening <key>." (and the app is launched) if the key is in the
    apps table and "App <key> not found in config." (and nothing is
    launched) if it is not. *)
Theorem open_command_response (command : string) (cfg : Config) (host : Host) :
  startswith "open " (lower command) = true ->
  handled (handle_command command cfg host) = true /\
  (contains "open " (drop 5 (lower command)) = false ->
   (forall launch, apps cfg !! drop 5 (lower command) = Some launch ->
      handle_command command cfg host
      = (true, "Opening " +:+ drop 5 (lower command) +:+ ".", [Popen launch])) /\
   (apps cfg !! drop 5 (lower command) = None ->
      handle_command command cfg host
      = (true, "App " +:+ drop 5 (lower command) +:+ " not found in config.",
         []))).
Proof.
  intros H. rewrite (handle_command_open _ _ _ H). cbv zeta. split.
  - now destruct (apps cfg !! replace "open " "" (lower command)).
  - intros Hc.
    assert (replace "open " "" (lower command) = drop 5 (lower command)) as ->
      by (apply (replace_prefix_only "open "); [discriminate | exact H | exact Hc]).
    split; [intros launch ->; reflexivity | intros ->; reflexivity].
Qed.

(** C5, as the code has it: a command whose lowercase form begins
    with "search " is always handled; when the lowercase remainder
    holds no further "search ", the response is "Searching the web for
    <remainder>." and the search page for that remainder is opened. *)
Theorem search_command_response (command : string) (cfg : Config) (host : Host) :
  startswith "search " (lower command) = true ->
  handled (handle_command command cfg host) = true /\
  (contains "search " (drop 7 (lower command)) = false ->
   handle_command command cfg host
   = (true, "Searching the web for " +:+ drop 7 (lower command) +:+ ".",
      [WebbrowserOpen ("https://www.google.com/search?q="
                       +:+ drop 7 (lower command))])).
Proof.
  intros H. rewrite (handle_command_search _ _ _ H). cbv zeta.
  split; [reflexivity|]. intros Hc.
  now rewrite (replace_prefix_only "search " _ ltac:(discriminate) H Hc).
Qed.

(** The rules tried before the shutdown rule. *)
Lemma handle_command_past_volume_brightness
      (command : string) (cfg : Config) (host : Host) :
  startswith "open " (lower command) = false ->
  startswith "search " (lower command) = false ->
  volume_rule (lower command) host = None ->
  brightness_rule (lower command) host = None ->
  handle_command command cfg host
  = or_else (shutdown_rule (lower command) cfg)
      (or_else (music_rule (lower command) cfg host)
         (or_else (code_rule (lower command))
            (false, "Command not recognized.", []))).
Proof.
  intros Ho Hs Hv Hb. unfold handle_command. now rewrite Ho, Hs, Hv, Hb.
Qed.

Lemma volume_rule_without (command : string) (host : Host) :
  AudioUtilities host = None \/ contains "volume" command = false ->
  volume_rule command host = None.
Proof.
  unfold volume_rule. intros [-> | ->]; [|reflexivity].
  now destruct (contains "volume" command).
Qed.

Lemma brightness_rule_without (command : string) (host : Host) :
  sbc host = None \/ contains "brightness" command = false ->
  brightness_rule command host = None.
Proof.
  unfold brightness_rule. intros [-> | ->]; [|reflexivity].
  now destruct (contains "brightness" command).
Qed.

(** C6, as the code has it: a command whose lowercase form contains
    "shutdown" or "restart" and which no earlier rule answers (it does
    not begin with "open " or "search ", and the volume and brightness
    rules do not answer it) gets, when [allow_shutdown] is false or
    absent, the fixed disabled message with handled=true, whether or
    not it contains "confirm", and no action on the system is made. *)
Theorem shutdown_disabled (command : string) (cfg : Config) (host : Host) :
  contains "shutdown" (lower command) || contains "restart" (lower command)
  = true ->
  default false (allow_shutdown cfg) = false ->
  startswith "open " (lower command) = false ->
  startswith "search " (lower command) = false ->
  volume_rule (lower command) host = None ->
  brightness_rule (lower command) host = None ->
  handle_command command cfg host = (true, disabled_message, []).
Proof.
  intros Hc Ha Ho Hs Hv Hb.
  rewrite (handle_command_past_volume_brightness _ _ _ Ho Hs Hv Hb).
  unfold shutdown_rule. now rewrite Hc, Ha.
Qed.

End CommandFacts.

Section CommandExamples.

Import Commands.

#[local] Existing Instance ascii_text.

Lemma open_command_response_witness :
  handle_command "Open Notepad" notepad_cfg bare_host
  = (true, "Opening notepad.", [Popen "notepad.exe"]).
Proof.
  destruct (open_command_response (py := ascii_text)
              "Open Notepad" notepad_cfg bare_host eq_refl)
    as [_ H].
  destruct (H eq_refl) as [Hin _].
  exact (Hin "notepad.exe" eq_refl).
Defined.

(** C1 as stated fails: "open Notepad" begins with "open ", its
    remainder "Notepad" is not a key of the table, yet the response is
    not "App Notepad not found in config." and the app is launched:
    the key looked up is the lowercase "notepad". *)
Lemma open_command_counterexample :
  startswith "open " "open Notepad" = true /\
  apps notepad_cfg !! drop 5 "open Notepad" = None /\
  handle_command "open Notepad" notepad_cfg bare_host
  = (true, "Opening notepad.", [Popen "notepad.exe"]) /\
  response (handle_command "open Notepad" notepad_cfg bare_host)
  <> "App Notepad not found in config.".
Proof. repeat split; try reflexivity. vm_compute. discriminate. Qed.

(** Every "open " of the text is dropped from the key, not only the
    leading one. *)
Example open_twice_ex :
  handle_command "open open office" notepad_cfg bare_host
  = (true, "App office not found in config.", []).
Proof. reflexivity. Qed.

Lemma search_command_response_witness :
  handle_command "search Hello World" notepad_cfg bare_host
  = (true, "Searching the web for hello world.",
     [WebbrowserOpen "https://www.google.com/search?q=hello world"]).
Proof.
  destruct (search_command_response (py := ascii_text)
              "search Hello World" notepad_cfg bare_host eq_refl) as [_ H].
  exact (H eq_refl).
Defined.

(** C5 as stated fails: "search Hello World" begins with "search ",
    but the response carries the lowercase text, not the exact
    trailing substring "Hello World". *)
Lemma search_command_counterexample :
  startswith "search " "search Hello World" = true /\
  drop 7 "search Hello World" = "Hello World" /\
  response (handle_command "search Hello World" notepad_cfg bare_host)
  = "Searching the web for hello world." /\
  response (handle_command "search Hello World" notepad_cfg bare_host)
  <> "Searching the web for Hello World.".
Proof. repeat split; try reflexivity. vm_compute. discriminate. Qed.

(** Every "search " of the text is dropped from the query, also one
    inside a word. *)
Example search_twice_ex :
  response (handle_command "search research papers" notepad_cfg bare_host)
  = "Searching the web for repapers.".
Proof. reflexivity. Qed.

Lemma shutdown_disabled_witness :
  handle_command "Confirm shutdown" notepad_cfg audio_host
  = (true, disabled_message, []).
Proof.
  apply (shutdown_disabled (py := ascii_text)); reflexivity.
Defined.

(** C6 as stated fails: "search restart" contains "restart" and
    [allow_shutdown] is absent, but the search rule comes first: the
    response is not the disabled message and a web page is opened.
    With volume control present, "volume shutdown" is answered by the
    volume rule, which lowers the volume. *)
Lemma shutdown_disabled_counterexample :
  contains "restart" "search restart" = true /\
  allow_shutdown notepad_cfg = None /\
  handle_command "search restart" notepad_cfg bare_host
  = (true, "Searching the web for restart.",
     [WebbrowserOpen "https://www.google.com/search?q=restart"]) /\
  response (handle_command "search restart" notepad_cfg bare_host)
  <> disabled_message /\
  actions (handle_command "search restart" notepad_cfg bare_host) <> [].
Proof. repeat split; try reflexivity; vm_compute; discriminate. Qed.

Example volume_shutdown_ex :
  handle_command "volume shutdown" notepad_cfg audio_host
  = (true, "Volume decreased.",
     [SetMasterVolumeLevelScalar (Qmax ((1 # 2) - (1 # 10)) 0)]).
Proof. reflexivity. Qed.

End CommandExamples.

(** ** Speech synthesis *)

Section TTSFacts.

Import TTS.

Variable hash : string -> Z.
Variable path_join : string -> string -> string.

#[local] Abbreviation say := (TTS.say hash path_join).
#[local] Abbreviation _say_online := (TTS._say_online hash path_join).
#[local] Abbreviation _say_offline := (TTS._say_offline hash path_join).
#[local] Abbreviation mp3_path_of := (TTS.mp3_path_of hash path_join).

Lemma truthy_nonempty (text : string) : text <> "" -> truthy text = true.
Proof. destruct text; [congruence | reflexivity]. Qed.

Lemma st_of_after pre r : st_of (after pre r) = st_of r.
Proof. now destruct r as [[? ?] ?]. Qed.

Lemma files_of_after pre r : files_of (after pre r) = files_of r.
Proof. now destruct r as [[? ?] ?]. Qed.

Lemma acts_of_after pre r : acts_of (after pre r) = pre ++ acts_of r.
Proof. now destruct r as [[? ?] ?]. Qed.

(** The online path leaves the engine record as it is. *)
Lemma _say_online_st self files text env :
  st_of (_say_online self files text env) = self.
Proof.
  unfold TTS._say_online. case_decide; [reflexivity|].
  now destruct (gtts_save env).
Qed.

Lemma _say_online_acts self files text env :
  acts_of (_say_online self files text env)
  = if decide (mp3_path_of self text ∈ files)
    then [Playsound (mp3_path_of self text)]
    else match gtts_save env with
         | Saved => [GttsSynth text (gtts_lang_code self (lang_pref self));
                     CacheWrite (mp3_path_of self text);
                     Playsound (mp3_path_of self text)]
         | _ => [GttsSynth text (gtts_lang_code self (lang_pref self))]
         end.
Proof.
  unfold TTS._say_online, TTS.mp3_path_of. case_decide; [reflexivity|].
  now destruct (gtts_save env).
Qed.

Lemma _say_online_files self files text env :
  files_of (_say_online self files text env)
  = if decide (mp3_path_of self text ∈ files) then files
    else match gtts_save env with
         | RaisesBeforeOpen => files
         | _ => {[mp3_path_of self text]} ∪ files
         end.
Proof.
  unfold TTS._say_online, TTS.mp3_path_of. case_decide; [reflexivity|].
  now destruct (gtts_save env).
Qed.

Lemma mode_set_lang_pref l self : mode (set_lang_pref l self) = mode self.
Proof. reflexivity. Qed.

(** No path of [_say_offline] writes the mode. *)
Lemma _say_offline_mode self files text env :
  mode (st_of (_say_offline self files text env)) = mode self.
Proof.
  unfold TTS._say_offline.
  set (self1 := if negb _ then _ else self).
  assert (mode self1 = mode self) as H1
    by (subst self1; now destruct (negb _)).
  destruct (engine self) as [h|].
  - destruct (first_run env).
    + exact H1.
    + destruct (reinit env) as [h'|].
      * destruct (second_run env);
          [|rewrite st_of_after, _say_online_st]; exact H1.
      * now rewrite st_of_after, _say_online_st.
    + now rewrite st_of_after, _say_online_st.
  - now rewrite st_of_after, _say_online_st.
Qed.

(** [say] never writes the mode: in particular an engine that is not
    offline never becomes offline. *)
Lemma say_mode self files text env :
  mode (st_of (say self files text env)) = mode self.
Proof.
  unfold TTS.say. destruct (negb (truthy text)); [reflexivity|].
  destruct (_ && _).
  - apply _say_offline_mode.
  - now rewrite _say_online_st.
Qed.

(** The offline path keeps an engine handle. *)
Lemma _say_offline_engine self files text env :
  is_Some (engine self) ->
  is_Some (engine (st_of (_say_offline self files text env))).
Proof.
  intros [h Hh]. unfold TTS._say_offline. rewrite Hh.
  set (self1 := if negb _ then _ else self).
  assert (engine self1 = Some h) as H1
    by (subst self1; now destruct (negb _)).
  destruct (first_run env).
  - exists h. exact H1.
  - destruct (reinit env) as [h'|].
    + destruct (second_run env);
        [|rewrite st_of_after, _say_online_st]; now exists h'.
    + rewrite st_of_after, _say_online_st. now exists h.
  - rewrite st_of_after, _say_online_st. now exists h.
Qed.

Lemma say_offline_path self files text env :
  text <> "" -> mode self = "offline" -> is_Some (engine self) ->
  say self files text env = _say_offline self files text env.
Proof.
  intros Ht Hm He. unfold TTS.say.
  rewrite (truthy_nonempty _ Ht), Hm. cbn [negb].
  now rewrite (bool_decide_eq_true_2 _ He).
Qed.

Lemma say_online_path self files text env :
  text <> "" -> mode self <> "offline" ->
  say self files text env = _say_online self files text env.
Proof.
  intros Ht Hm. unfold TTS.say.
  rewrite (truthy_nonempty _ Ht). cbn [negb].
  apply String.eqb_neq in Hm. now rewrite Hm.
Qed.

(** With a handle, the offline path begins by trying the engine. *)
Lemma _say_offline_attempt self files text env h :
  engine self = Some h ->
  In (EngineSay h text) (acts_of (_say_offline self files text env)).
Proof.
  intros Hh. unfold TTS._say_offline. rewrite Hh.
  destruct (first_run env); [| destruct (reinit env);
                               [destruct (second_run env)|] |];
    rewrite ?acts_of_after; unfold acts_of; cbn [snd];
    rewrite ?in_app_iff; cbn [In]; tauto.
Qed.

(** C4, as the code has it: when the offline attempt raises a runtime
    error and the one retry after setting the engine up again fails
    too, the failing utterance goes through the online path, but the
    mode is left at offline and an engine handle is kept, so the next
    [say] tries the offline engine again.  No [say] ever writes the
    mode: an engine that is online stays online. *)
Theorem offline_failure_falls_back_for_the_call
        (self : TTSEngine) (files : gset string) (text : string) (env : Env)
        (h : nat) :
  text <> "" ->
  mode self = "offline" ->
  engine self = Some h ->
  first_run env = RaisesRuntimeError ->
  reinit env = None \/ second_run env = false ->
  (exists pre,
      acts_of (say self files text env)
      = pre ++ acts_of (_say_online (st_of (say self files text env))
                                    files text env)) /\
  mode (st_of (say self files text env)) = "offline" /\
  (forall text' env', text' <> "" ->
     exists h',
       engine (st_of (say self files text env)) = Some h' /\
       In (EngineSay h' text')
          (acts_of (say (st_of (say self files text env))
                        (files_of (say self files text env)) text' env'))) /\
  (forall st fs text' env',
      mode st <> "offline" -> mode (st_of (say st fs text' env')) <> "offline").
Proof.
  intros Ht Hm Hh Hf Hr.
  assert (is_Some (engine self)) as He by now exists h.
  split; [|split; [|split]].
  - rewrite (say_offline_path _ _ _ _ Ht Hm He).
    unfold TTS._say_offline. rewrite Hh, Hf.
    destruct Hr as [Hr | Hr].
    + rewrite Hr. rewrite st_of_after, _say_online_st, acts_of_after.
      now eexists.
    + destruct (reinit env) as [h'|]; [rewrite Hr|];
        rewrite st_of_after, _say_online_st, acts_of_after; now eexists.
  - now rewrite say_mode.
  - intros text' env' Ht'.
    assert (is_Some (engine (st_of (say self files text env)))) as [h' Hh'].
    { rewrite (say_offline_path _ _ _ _ Ht Hm He).
      now apply _say_offline_engine. }
    exists h'. split; [exact Hh'|].
    rewrite (say_offline_path _ _ _ _ Ht').
    + now apply _say_offline_attempt.
    + now rewrite say_mode.
    + now exists h'.
  - intros st fs text' env' H. now rewrite say_mode.
Qed.

(** C7, as the code has it: in online mode, two [say] calls with the
    same text on the same engine write the hosted audio to the cache
    at most once.  For a non-empty text, when the first call found the
    file cached, or gTTS got as far as opening the cache file (whether
    or not the audio was then written), the second call is a cache
    hit: it only plays the cached file.  When the file was not cached
    and gTTS raised before opening it, the second call is no cache hit
    and asks for the synthesis again. *)
Theorem online_say_twice
        (self : TTSEngine) (files : gset string) (text : string)
        (env1 env2 : Env) :
  mode self <> "offline" ->
  (length (List.filter is_cache_write
             (acts_of (say self files text env1)
              ++ acts_of (say (st_of (say self files text env1))
                              (files_of (say self files text env1))
                              text env2))) <= 1)%nat /\
  (text <> "" ->
   mp3_path_of self text ∈ files \/ gtts_save env1 <> RaisesBeforeOpen ->
   acts_of (say (st_of (say self files text env1))
                (files_of (say self files text env1)) text env2)
   = [Playsound (mp3_path_of self text)]) /\
  (text <> "" ->
   mp3_path_of self text ∉ files -> gtts_save env1 = RaisesBeforeOpen ->
   exists rest,
     acts_of (say (st_of (say self files text env1))
                  (files_of (say self files text env1)) text env2)
     = GttsSynth text (gtts_lang_code self (lang_pref self)) :: rest).
Proof.
  intros Hm. destruct (decide (text = "")) as [-> | Ht].
  { split; [cbn; lia | split; congruence]. }
  rewrite (say_online_path _ _ _ _ Ht Hm), _say_online_st.
  rewrite (say_online_path _ _ _ _ Ht Hm).
  rewrite !_say_online_acts, _say_online_files.
  destruct (decide (mp3_path_of self text ∈ files)) as [Hin | Hout].
  - rewrite (decide_True _ _ Hin).
    split; [cbn; lia | split; [reflexivity | contradiction]].
  - destruct (gtts_save env1) eqn:Hs.
    + rewrite decide_True by set_solver.
      split; [cbn; lia | split; [reflexivity | discriminate]].
    + rewrite decide_True by set_solver.
      split; [cbn; lia | split; [reflexivity | discriminate]].
    + rewrite (decide_False _ _ Hout). split; [|split].
      * destruct (gtts_save env2); cbn; lia.
      * intros _ [Hin | Hn]; [contradiction | congruence].
      * intros _ _ _. destruct (gtts_save env2); eexists; reflexivity.
Qed.

Lemma _say_online_attempts self files text env :
  attempts text (acts_of (_say_online self files text env)).
Proof.
  right. rewrite _say_online_acts. case_decide.
  - right. eexists. now left.
  - left. eexists. destruct (gtts_save env); now left.
Qed.

(** C8, as the code has it: [say] with the empty text does nothing and
    changes nothing.  Every other text, a blank one included, is
    handed to the offline engine or to the hosted synthesis, or its
    cached file is played: the empty text is the only one for which no
    action is made. *)
Theorem say_empty_noop
        (self : TTSEngine) (files : gset string) (env : Env) :
  say self files "" env = (self, files, []) /\
  (forall text, text <> "" -> attempts text (acts_of (say self files text env))) /\
  (forall text, acts_of (say self files text env) = [] -> text = "").
Proof.
  assert (forall text, text <> "" ->
                       attempts text (acts_of (say self files text env))) as Hatt.
  { intros text Ht.
    destruct (decide (mode self = "offline")) as [Hm | Hm].
    - destruct (engine self) as [h|] eqn:Hh.
      + left. exists h.
        rewrite (say_offline_path _ _ _ _ Ht Hm) by now exists h.
        now apply _say_offline_attempt.
      + unfold TTS.say. rewrite (truthy_nonempty _ Ht), Hm, Hh. cbn.
        apply _say_online_attempts.
    - rewrite (say_online_path _ _ _ _ Ht Hm). apply _say_online_attempts. }
  split; [reflexivity | split; [exact Hatt|]]. intros text H.
  destruct (decide (text = "")) as [|Ht]; [assumption | exfalso].
  destruct (Hatt text Ht) as [[? Hin] | [[? Hin] | [? Hin]]];
    rewrite H in Hin; destruct Hin.
Qed.

End TTSFacts.

Section TTSExamples.

Import TTS.

Lemma say_empty_noop_witness :
  say toy_hash slash_join online_engine ∅ "" fair_env = (online_engine, ∅, []) /\
  attempts " "
    (acts_of (say toy_hash slash_join online_engine ∅ " " blank_text_env)).
Proof.
  split.
  - apply (say_empty_noop toy_hash slash_join online_engine ∅ fair_env).
  - apply (say_empty_noop toy_hash slash_join online_engine ∅ blank_text_env).
    discriminate.
Defined.

Lemma offline_failure_falls_back_witness :
  mode (st_of (say toy_hash slash_join offline_engine ∅ "hi" sapi_down_env))
  = "offline".
Proof.
  destruct (offline_failure_falls_back_for_the_call
              toy_hash slash_join offline_engine ∅ "hi" sapi_down_env 0%nat)
    as (_ & H & _);
    [discriminate | reflexivity | reflexivity | reflexivity | now right |].
  exact H.
Defined.

(** C4 as stated fails: after the offline attempt and its retry have
    failed for "hi" (spoken through the online path), the mode is
    still offline and the next call speaks "hello" with the offline
    engine, not through the online path. *)
Lemma offline_failure_counterexample :
  let r := say toy_hash slash_join offline_engine ∅ "hi" sapi_down_env in
  acts_of r
  = [EngineSay 0 "hi"; EngineInit; PickVoice "en"; EngineSay 1 "hi";
     GttsSynth "hi" "en"; CacheWrite "./runtime/tts_cache/en_2.mp3";
     Playsound "./runtime/tts_cache/en_2.mp3"] /\
  mode (st_of r) = "offline" /\
  mode (st_of r) <> "online" /\
  acts_of (say toy_hash slash_join (st_of r) (files_of r) "hello" fair_env)
  = [EngineSay 1 "hello"].
Proof. vm_compute. repeat split. discriminate. Qed.

Lemma online_say_twice_witness :
  acts_of (say toy_hash slash_join online_engine
             (files_of (say toy_hash slash_join online_engine ∅ "hi"
                          network_down_env))
             "hi" fair_env)
  = [Playsound "./runtime/tts_cache/en_2.mp3"].
Proof.
  destruct (online_say_twice toy_hash slash_join online_engine ∅ "hi"
              network_down_env fair_env) as (_ & H & _); [discriminate|].
  apply H; [discriminate | right; discriminate].
Defined.

(** C7 as stated fails: with a language code that gTTS does not know,
    the hosted synthesis raises before the cache file is opened; the
    second call with the same text and language code finds no cached
    file, is no cache hit and asks for the synthesis again. *)
Lemma online_say_twice_counterexample :
  let r := say toy_hash slash_join mislabelled_engine ∅ "hi"
             unknown_language_env in
  st_of r = mislabelled_engine /\
  files_of r = ∅ /\
  acts_of r = [GttsSynth "hi" "english"] /\
  acts_of (say toy_hash slash_join (st_of r) (files_of r) "hi"
             unknown_language_env)
  = [GttsSynth "hi" "english"] /\
  acts_of (say toy_hash slash_join (st_of r) (files_of r) "hi"
             unknown_language_env)
  <> [Playsound "./runtime/tts_cache/english_2.mp3"].
Proof. repeat split. discriminate. Qed.

(** C8 as stated fails for a blank text: in offline mode " " is handed
    to the offline engine; in online mode it is handed to gTTS, which
    opens the cache file and then finds nothing to speak, so an empty
    file is left behind. *)
Lemma say_blank_counterexample :
  AsciiText.strip " " = "" /\
  acts_of (say toy_hash slash_join offline_engine ∅ " " fair_env)
  = [EngineSay 0 " "] /\
  acts_of (say toy_hash slash_join online_engine ∅ " " blank_text_env)
  = [GttsSynth " " "en"] /\
  "./runtime/tts_cache/en_1.mp3"
  ∈ files_of (say toy_hash slash_join online_engine ∅ " " blank_text_env).
Proof. repeat split. Qed.

End TTSExamples.

(** ** The assistant *)

Section AssistantFacts.

Import Assistant.

Variable hash : string -> Z.
Variable path_join : string -> string -> string.

Context `{py : Builtins}.

#[local] Abbreviation on_stt_result := (Assistant.on_stt_result hash path_join).
#[local] Abbreviation handle_user_text :=
  (Assistant.handle_user_text hash path_join).
#[local] Abbreviation speak := (Assistant.speak hash path_join).

#[local] Arguments String.append !s1 s2 : simpl nomatch.

Lemma replace_empty_nothing (s : string) : replace_empty "" s = s.
Proof. induction s as [|c s IH]; simpl; [reflexivity | now rewrite IH]. Qed.

(** Removing a fragment cuts out its first occurrence and removes the
    fragment from the text after it in the same way. *)
Lemma replace_first_removed (old s : string) (n : nat) :
  find old s = Some n ->
  replace old "" s
  = take n s +:+ replace old "" (drop (n + String.length old) s).
Proof.
  intros H. destruct old as [|c old].
  - assert (n = 0)%nat as ->
      by (destruct s; cbn [find] in H; rewrite startswith_empty in H;
          congruence).
    unfold replace. rewrite !replace_empty_nothing.
    cbn [take plus String.length drop]. now destruct s.
  - assert (String c old <> "") as Hne by discriminate.
    now rewrite (replace_first _ "" _ _ Hne H).
Qed.

(** With one occurrence only, removing the fragment is removing its
    first occurrence. *)
Lemma replace_single (old s : string) (n : nat) :
  find old s = Some n ->
  find old (drop (n + String.length old) s) = None ->
  replace old "" s = remove_first old s.
Proof.
  intros H Hrest. rewrite (replace_first_removed _ _ _ H).
  unfold remove_first. rewrite H. now rewrite (replace_absent _ _ _ Hrest).
Qed.

Lemma routed_texts_app (l1 l2 : list effect) :
  routed_texts (l1 ++ l2) = routed_texts l1 ++ routed_texts l2.
Proof. apply omap_app. Qed.

Lemma routed_texts_log_jsonl self env role text :
  routed_texts (log_jsonl self env role text) = [].
Proof.
  unfold log_jsonl. destruct (jsonl_path self) as [p|]; [|reflexivity].
  destruct (truthy p); [|reflexivity].
  now destruct (jsonl_append env role text).
Qed.

Lemma routed_texts_Os (l : list Commands.os_action) :
  routed_texts (map Os l) = [].
Proof. induction l; [reflexivity | exact IHl]. Qed.

Lemma routed_texts_Tts (l : list TTS.tts_action) :
  routed_texts (map Tts l) = [].
Proof. induction l; [reflexivity | exact IHl]. Qed.

Lemma routed_texts_route_command self text env :
  routed_texts (snd (route_command self text env)) = [].
Proof.
  unfold route_command.
  destruct (Commands.handle_command _ _ _) as [[handled resp] acts].
  destruct handled; [apply routed_texts_Os|].
  destruct (gpt_enabled self); [|apply routed_texts_Os].
  destruct (query_gpt text env); cbn [snd];
    now rewrite routed_texts_app, routed_texts_Os.
Qed.

Lemma routed_texts_speak self files text env :
  routed_texts (snd (speak self files text env)) = [].
Proof.
  unfold Assistant.speak.
  destruct (TTS.say _ _ _ _ _ _) as [[t f] acts]. apply routed_texts_Tts.
Qed.

(** One utterance handled is one text routed: the text itself. *)
Lemma routed_texts_handle_user_text self files text env :
  routed_texts (snd (handle_user_text self files text env)) = [text].
Proof.
  unfold Assistant.handle_user_text.
  pose proof (routed_texts_route_command self text env) as Hr.
  destruct (route_command self text env) as [[response|e] routed];
    cbn [snd] in Hr.
  - destruct (truthy response).
    + pose proof (routed_texts_speak self files response env) as Hs.
      destruct (speak self files response env) as [st spoken].
      cbn [snd] in *.
      rewrite !routed_texts_app, Hr, Hs, !routed_texts_log_jsonl.
      reflexivity.
    + cbn [snd]. now rewrite !routed_texts_app, Hr, routed_texts_log_jsonl.
  - cbn [snd]. now rewrite !routed_texts_app, Hr, routed_texts_log_jsonl.
Qed.

(** C10: for the empty string [on_stt_result] returns at once: no
    event is emitted, no line is logged, nothing is routed or spoken,
    and the assistant and the files are as before. *)
Theorem on_stt_result_empty
        (self : Assistant) (files : gset string) (env : Env) :
  on_stt_result self files "" env = ((self, files), []).
Proof. reflexivity. Qed.

(** C2, as the code has it: when the wake word occurs in a non-empty
    utterance and nothing is left once it is removed and the text
    trimmed, exactly one event is emitted, the log event "Heard wake
    word: <wake word>"; there is no status or transcript event, no
    line in the JSON-lines file, no response, and nothing changes. *)
Theorem wake_word_alone
        (self : Assistant) (files : gset string) (text : string) (env : Env) :
  text <> "" ->
  contains (wake_word_of (cfg self)) (lower (strip text)) = true ->
  strip (replace (wake_word_of (cfg self)) "" (lower (strip text))) = "" ->
  on_stt_result self files text env
  = ((self, files),
     [Emit (log ("Heard wake word: " +:+ wake_word_of (cfg self)))]).
Proof.
  intros Ht Hc He. unfold Assistant.on_stt_result.
  rewrite (truthy_nonempty _ Ht). cbn [negb]. now rewrite Hc, He.
Qed.

(** C3, as the code has it: when the wake word occurs in a non-empty
    utterance, first at position [n] of the trimmed lowercase text,
    the text passed on for routing is that text with the first
    occurrence cut out and with every further occurrence removed from
    what follows it, trimmed. *)
Theorem wake_word_removed_throughout
        (self : Assistant) (files : gset string) (text : string) (env : Env)
        (n : nat) :
  text <> "" ->
  find (wake_word_of (cfg self)) (lower (strip text)) = Some n ->
  strip (take n (lower (strip text))
         +:+ replace (wake_word_of (cfg self)) ""
               (drop (n + String.length (wake_word_of (cfg self)))
                     (lower (strip text)))) <> "" ->
  routed_texts (snd (on_stt_result self files text env))
  = [strip (take n (lower (strip text))
            +:+ replace (wake_word_of (cfg self)) ""
                  (drop (n + String.length (wake_word_of (cfg self)))
                        (lower (strip text))))].
Proof.
  intros Ht Hf Hne. unfold Assistant.on_stt_result.
  rewrite (truthy_nonempty _ Ht). cbn [negb].
  unfold contains. rewrite Hf.
  rewrite (replace_first_removed _ _ _ Hf).
  rewrite (truthy_nonempty _ Hne). cbn [negb].
  pose proof (routed_texts_handle_user_text self files
    (strip (take n (lower (strip text))
            +:+ replace (wake_word_of (cfg self)) ""
                  (drop (n + String.length (wake_word_of (cfg self)))
                        (lower (strip text))))) env) as Hr.
  destruct (handle_user_text _ _ _ _) as [st effs].
  cbn [snd] in *. rewrite routed_texts_app. exact Hr.
Qed.

(** Whatever the hosted model does, [route_command] returns. *)
Lemma route_command_returns self text env :
  exists r, fst (route_command self text env) = Returns r.
Proof.
  unfold route_command.
  destruct (Commands.handle_command _ _ _) as [[handled resp] acts].
  destruct handled; [now eexists|].
  destruct (gpt_enabled self); [|now eexists].
  destruct (query_gpt text env); now eexists.
Qed.

(** C9: when the built-in commands do not handle the text and the
    hosted model is enabled, an error raised by the call to the model
    is caught: [route_command] returns the fixed apology and raises
    nothing. *)
Theorem gpt_error_is_caught
        (self : Assistant) (text : string) (env : Env) (e : string) :
  Commands.handled (Commands.handle_command text (cfg self) (host env))
  = false ->
  gpt_enabled self = true ->
  gpt env = GptRaises e ->
  query_gpt text env = Raises e /\
  fst (route_command self text env) = Returns apology.
Proof.
  intros Hh Hg He. unfold route_command, query_gpt. rewrite He.
  split; [reflexivity|].
  destruct (Commands.handle_command _ _ _) as [[handled resp] acts].
  cbn in Hh. subst handled. now rewrite Hg.
Qed.

End AssistantFacts.

Section AssistantExamples.

Import Assistant.

#[local] Existing Instance ascii_text.

Lemma wake_word_alone_witness :
  on_stt_result toy_hash slash_join crux ∅ " Crux " gpt_down_env
  = ((crux, ∅), [Emit (log "Heard wake word: crux")]).
Proof.
  apply (wake_word_alone (py := ascii_text)
           toy_hash slash_join crux ∅ " Crux " gpt_down_env);
    [discriminate | reflexivity | reflexivity].
Defined.

(** C2 as stated fails: for the utterance "crux" one event is emitted,
    the log event that the wake word was heard. *)
Lemma wake_word_alone_counterexample :
  contains "crux" (lower (strip "crux")) = true /\
  strip (remove_first "crux" (lower (strip "crux"))) = "" /\
  snd (on_stt_result toy_hash slash_join crux ∅ "crux" gpt_down_env)
  = [Emit (log "Heard wake word: crux")] /\
  snd (on_stt_result toy_hash slash_join crux ∅ "crux" gpt_down_env) <> [].
Proof. repeat split; try reflexivity. discriminate. Qed.

Lemma wake_word_removed_throughout_witness :
  routed_texts
    (snd (on_stt_result toy_hash slash_join crux ∅
            "hey Crux open notepad" gpt_down_env))
  = ["hey  open notepad"].
Proof.
  apply (wake_word_removed_throughout (py := ascii_text)
           toy_hash slash_join crux ∅
           "hey Crux open notepad" gpt_down_env 4);
    [discriminate | reflexivity | discriminate].
Defined.

(** C3 as stated fails: in "crux open crux" the later occurrence of
    the wake word is removed too; the text routed is "open", not
    "open crux". *)
Lemma wake_word_first_only_counterexample :
  strip (remove_first "crux" (lower (strip "crux open crux"))) = "open crux" /\
  routed_texts
    (snd (on_stt_result toy_hash slash_join crux ∅
            "crux open crux" gpt_down_env))
  = ["open"] /\
  routed_texts
    (snd (on_stt_result toy_hash slash_join crux ∅
            "crux open crux" gpt_down_env))
  <> ["open crux"].
Proof. repeat split; try reflexivity. vm_compute. discriminate. Qed.

Lemma gpt_error_is_caught_witness :
  fst (route_command crux_with_gpt "what time is it" gpt_down_env)
  = Returns apology.
Proof.
  destruct (gpt_error_is_caught (py := ascii_text)
              crux_with_gpt "what time is it" gpt_down_env "Connection error.")
    as [_ H]; [reflexivity .. | exact H].
Defined.

(** The scenario of the specification: "crux open notepad". *)
Example crux_open_notepad_ex :
  snd (on_stt_result toy_hash slash_join crux ∅ "crux open notepad"
         gpt_down_env)
  = [Emit (log "Heard wake word: crux");
     Emit (transcript "user" "open notepad");
     AuditLine "./logs/crux.jsonl" "user" "open notepad";
     Os (Commands.Popen "notepad.exe");
     Tts (TTS.GttsSynth "Opening notepad." "en");
     Tts (TTS.CacheWrite "./runtime/tts_cache/en_16.mp3");
     Tts (TTS.Playsound "./runtime/tts_cache/en_16.mp3");
     Emit (transcript "assistant" "Opening notepad.");
     AuditLine "./logs/crux.jsonl" "assistant" "Opening notepad."].
Proof. vm_compute. reflexivity. Qed.

End AssistantExamples.


(** ** More on the built-in commands *)

Section CommandSafety.

Import Commands.

Context `{py : Builtins}.

(** Splits the goal along every test that [handle_command] makes. *)
Ltac rule_cases :=
  repeat match goal with
         | |- context [match ?x with _ => _ end] =>
             lazymatch x with
             | context [match _ with _ => _ end] => fail
             | _ => destruct x eqn:?; cbn [fst snd]
             end
         end.

Ltac unfold_rules :=
  unfold handle_command, or_else, volume_rule, brightness_rule,
    shutdown_rule, music_rule, code_rule, handled, response, actions.

(** The system is shut down or restarted only when the configuration
    allows it and the command itself contains "confirm" next to
    "shutdown" or "restart"; the command run is one of the two fixed
    ones. *)
Theorem os_system_only_when_allowed_and_confirmed
        (command : string) (cfg : Config) (host : Host) (cmd : string) :
  In (OsSystem cmd) (actions (handle_command command cfg host)) ->
  allow_shutdown cfg = Some true /\
  contains "confirm" (lower command) = true /\
  (contains "shutdown" (lower command) = true /\ cmd = "shutdown /s /t 1" \/
   contains "shutdown" (lower command) = false /\
   contains "restart" (lower command) = true /\ cmd = "shutdown /r /t 1").
Proof.
  unfold_rules. generalize (lower command). intros c.
  rule_cases; cbn; intros H; repeat destruct H as [H|H]; try discriminate;
    try contradiction; injection H as <-;
    destruct (allow_shutdown cfg) as [[]|]; try discriminate;
    destruct (contains "confirm" c); try discriminate; auto 10.
Qed.

(** A program is launched only for a command whose lowercase form
    begins with "open ", and the command line run is the one the apps
    table gives for the key taken from the command. *)
Theorem popen_only_configured_app
        (command : string) (cfg : Config) (host : Host) (cmd : string) :
  In (Popen cmd) (actions (handle_command command cfg host)) ->
  startswith "open " (lower command) = true /\
  apps cfg !! replace "open " "" (lower command) = Some cmd.
Proof.
  unfold_rules. generalize (lower command). intros c.
  rule_cases; cbn; intros H; repeat destruct H as [H|H]; try discriminate;
    try contradiction; injection H as <-; auto.
Qed.

(** A file is opened with the system's default program only for a
    command containing "play music", and the file is the configured
    music path, which is not empty and exists. *)
Theorem startfile_only_existing_music_path
        (command : string) (cfg : Config) (host : Host) (path : string) :
  In (OsStartfile path) (actions (handle_command command cfg host)) ->
  contains "play music" (lower command) = true /\
  music_path cfg = Some path /\
  path <> "" /\
  path_exists host path = true.
Proof.
  unfold_rules. generalize (lower command). intros c.
  rule_cases; cbn; intros H; repeat destruct H as [H|H]; try discriminate;
    try contradiction; injection H as <-;
    destruct (music_path cfg) as [[|x m]|]; cbn in *; try discriminate;
    repeat split; auto; discriminate.
Qed.

(** Without a rule that handles it, a command makes no action. *)
Lemma unhandled_command_answer
        (command : string) (cfg : Config) (host : Host) :
  handled (handle_command command cfg host) = false ->
  actions (handle_command command cfg host) = [] /\
  response (handle_command command cfg host) = "Command not recognized.".
Proof.
  unfold_rules. generalize (lower command). intros c.
  rule_cases; cbn; intros H; try discriminate; split; reflexivity.
Qed.

(** A command that no rule handles makes no action at all, and its
    response is the fixed "Command not recognized.". *)
Theorem unhandled_command_is_inert
        (command : string) (cfg : Config) (host : Host) :
  handled (handle_command command cfg host) = false ->
  handle_command command cfg host = (false, "Command not recognized.", []).
Proof.
  unfold_rules. generalize (lower command). intros c.
  rule_cases; cbn; intros H; try discriminate; reflexivity.
Qed.

(** A handled command always comes with a non-empty response. *)
Theorem handled_response_not_empty
        (command : string) (cfg : Config) (host : Host) :
  handled (handle_command command cfg host) = true ->
  response (handle_command command cfg host) <> "".
Proof.
  unfold_rules. generalize (lower command). intros c.
  rule_cases; cbn; intros H; try discriminate; discriminate.
Qed.

(** One command makes at most one action on the system. *)
Theorem at_most_one_action
        (command : string) (cfg : Config) (host : Host) :
  (length (actions (handle_command command cfg host)) <= 1)%nat.
Proof.
  unfold_rules. generalize (lower command). intros c.
  rule_cases; cbn; lia.
Qed.

(** With shutdown allowed, a command that contains "shutdown" or
    "restart" but not "confirm" (and that no earlier rule answers) only
    gets the request to confirm: nothing is done to the system. *)
Theorem shutdown_needs_confirm
        (command : string) (cfg : Config) (host : Host) :
  allow_shutdown cfg = Some true ->
  contains "shutdown" (lower command) || contains "restart" (lower command)
  = true ->
  contains "confirm" (lower command) = false ->
  startswith "open " (lower command) = false ->
  startswith "search " (lower command) = false ->
  volume_rule (lower command) host = None ->
  brightness_rule (lower command) host = None ->
  handle_command command cfg host
  = (true, "Say 'confirm shutdown' or 'confirm restart' to proceed.", []).
Proof.
  intros Ha Hc Hn Ho Hs Hv Hb.
  rewrite (handle_command_past_volume_brightness _ _ _ Ho Hs Hv Hb).
  unfold shutdown_rule. now rewrite Hc, Ha, Hn.
Qed.

(** With shutdown allowed and "confirm" in the command (and no earlier
    rule answering), "shutdown" wins over "restart": a command that
    contains "shutdown" shuts the system down, also when it contains
    "restart" as well; only without "shutdown" is the system
    restarted. *)
Theorem confirmed_shutdown_before_restart
        (command : string) (cfg : Config) (host : Host) :
  allow_shutdown cfg = Some true ->
  contains "shutdown" (lower command) || contains "restart" (lower command)
  = true ->
  contains "confirm" (lower command) = true ->
  startswith "open " (lower command) = false ->
  startswith "search " (lower command) = false ->
  volume_rule (lower command) host = None ->
  brightness_rule (lower command) host = None ->
  handle_command command cfg host
  = if contains "shutdown" (lower command)
    then (true, "Shutting down system...", [OsSystem "shutdown /s /t 1"])
    else (true, "Restarting system...", [OsSystem "shutdown /r /t 1"]).
Proof.
  intros Ha Hc Hn Ho Hs Hv Hb.
  rewrite (handle_command_past_volume_brightness _ _ _ Ho Hs Hv Hb).
  unfold shutdown_rule. rewrite Hc, Ha, Hn. cbn.
  destruct (contains "shutdown" (lower command)); [reflexivity|].
  cbn in Hc. now rewrite Hc.
Qed.

End CommandSafety.


(** ** More on speech synthesis *)

Section TTSMore.

Import TTSSetup TTS.

Variable hash : string -> Z.
Variable path_join : string -> string -> string.

#[local] Abbreviation say := (TTS.say hash path_join).
#[local] Abbreviation _say_online := (TTS._say_online hash path_join).
#[local] Abbreviation _say_offline := (TTS._say_offline hash path_join).
#[local] Abbreviation mp3_path_of := (TTS.mp3_path_of hash path_join).
#[local] Abbreviation say_all := (TTSSetup.say_all hash path_join).

(** Every call of [say] is a run of offline-engine actions, followed or
    not by the online path on the engine record as the call leaves
    it. *)
Lemma say_shape self files text env :
  exists pre,
    forallb is_engine_action pre = true /\
    (files_of (say self files text env) = files /\
     acts_of (say self files text env) = pre \/
     files_of (say self files text env)
     = files_of (_say_online (st_of (say self files text env)) files text env) /\
     acts_of (say self files text env)
     = pre ++ acts_of (_say_online (st_of (say self files text env))
                                   files text env)).
Proof.
  unfold TTS.say. destruct (negb (truthy text)).
  { exists []. split; [reflexivity | now left]. }
  destruct (_ && _).
  - unfold TTS._say_offline.
    set (self1 := if negb _ then _ else self).
    set (pick := if negb _ then _ else []).
    assert (forallb is_engine_action pick = true) as Hp
      by (subst pick; destruct (negb _); [destruct (engine self)|]; reflexivity).
    destruct (engine self) as [h|];
      [destruct (first_run env);
       [|destruct (reinit env) as [h'|]; [destruct (second_run env)|]|]|].
    1,2: eexists; split;
         [|left; unfold files_of, acts_of; cbn [fst snd]; split; reflexivity];
         now rewrite forallb_app, Hp.
    1,2,3: eexists; split;
           [|right; rewrite st_of_after, files_of_after, acts_of_after,
                    _say_online_st; split; reflexivity];
           now rewrite forallb_app, Hp.
    exists pick. split; [exact Hp|]. right.
    now rewrite st_of_after, files_of_after, acts_of_after, _say_online_st.
  - exists []. split; [reflexivity|]. right. now rewrite _say_online_st.
Qed.

Lemma engine_action_not_playsound pre p :
  forallb is_engine_action pre = true -> ~ In (Playsound p) pre.
Proof.
  intros H Hin. rewrite forallb_forall in H. now apply H in Hin.
Qed.

(** [say] never removes a file, and the only file it can add is the
    cache file of the text it was given. *)
Theorem say_cache_only_grows
        (self : TTSEngine) (files : gset string) (text : string) (env : Env) :
  files ⊆ files_of (say self files text env) /\
  files_of (say self files text env)
  ⊆ {[ mp3_path_of (st_of (say self files text env)) text ]} ∪ files.
Proof.
  destruct (say_shape self files text env) as (pre & Hpre & [[Hfs Ha] | [Hfs Ha]]);
    rewrite Hfs; clear Hfs Ha Hpre.
  - set_solver.
  - rewrite _say_online_files.
    case_decide; [set_solver|]. destruct (gtts_save env); set_solver.
Qed.

(** Whatever [say] plays is the cache file of the text it was given,
    and that file exists when the call ends. *)
Theorem say_plays_cached_file
        (self : TTSEngine) (files : gset string) (text : string) (env : Env)
        (path : string) :
  In (Playsound path) (acts_of (say self files text env)) ->
  path = mp3_path_of (st_of (say self files text env)) text /\
  path ∈ files_of (say self files text env).
Proof.
  destruct (say_shape self files text env)
    as (pre & Hpre & [[Hfs Ha] | [Hfs Ha]]); rewrite Ha, Hfs; clear Ha Hfs.
  - intros Hin. now apply engine_action_not_playsound in Hin.
  - rewrite in_app_iff.
    intros [Hin | Hin]; [now apply engine_action_not_playsound in Hin|].
    revert Hin. rewrite _say_online_acts, _say_online_files.
    case_decide as Hc.
    + intros [[= <-] | []]. auto.
    + destruct (gtts_save env); cbn; intros Hin;
        repeat destruct Hin as [Hin | Hin]; try discriminate; try contradiction.
      injection Hin as <-. split; [reflexivity | set_solver].
Qed.

(** One call of [say] tries the offline engine at most twice, sets it
    up again at most once, asks for at most one hosted synthesis and
    starts at most one playback. *)
Theorem say_attempts_are_bounded
        (self : TTSEngine) (files : gset string) (text : string) (env : Env) :
  (count is_engine_say (acts_of (say self files text env)) <= 2)%nat /\
  (count is_engine_init (acts_of (say self files text env)) <= 1)%nat /\
  (count is_gtts_synth (acts_of (say self files text env)) <= 1)%nat /\
  (count is_playsound (acts_of (say self files text env)) <= 1)%nat.
Proof.
  unfold count, TTS.say, TTS._say_offline, TTS._say_online.
  destruct (negb (truthy text)); [cbn; lia|].
  destruct (_ && _).
  - destruct (negb _), (engine self), (first_run env), (reinit env),
      (second_run env);
      repeat case_decide; destruct (gtts_save env); cbn; lia.
  - case_decide; [|destruct (gtts_save env)]; cbn; lia.
Qed.

(** In a mode other than offline [say] looks neither at the language
    preference in the configuration nor at the offline engine: only the
    answer of the hosted synthesis matters, and the language preference
    of the engine record stays what it was. *)
Theorem online_say_ignores_language_change
        (self : TTSEngine) (files : gset string) (text : string)
        (env env' : Env) :
  mode self <> "offline" ->
  gtts_save env = gtts_save env' ->
  say self files text env = say self files text env' /\
  lang_pref (st_of (say self files text env)) = lang_pref self.
Proof.
  intros Hm Hg. apply String.eqb_neq in Hm.
  unfold TTS.say. rewrite Hm. cbn [andb].
  destruct (negb (truthy text)); [split; reflexivity|].
  rewrite _say_online_st. split; [|reflexivity].
  unfold TTS._say_online. now rewrite Hg.
Qed.

(** On the offline path [say] takes over the language preference found
    in the configuration at the time of the call. *)
Theorem offline_say_adopts_language
        (self : TTSEngine) (files : gset string) (text : string) (env : Env) :
  text <> "" ->
  mode self = "offline" ->
  is_Some (engine self) ->
  lang_pref (st_of (say self files text env))
  = default (lang_pref self) (cfg_language env).
Proof.
  intros Ht Hm [h Hh].
  rewrite (say_offline_path _ _ _ _ _ _ Ht Hm) by now exists h.
  unfold TTS._say_offline. rewrite Hh.
  set (self1 := if negb _ then _ else self).
  assert (lang_pref self1 = default (lang_pref self) (cfg_language env)) as H1.
  { subst self1.
    destruct (default (lang_pref self) (cfg_language env) =? lang_pref self)
      eqn:E; cbn; [|reflexivity].
    now apply String.eqb_eq in E. }
  destruct (first_run env);
    [|destruct (reinit env); [destruct (second_run env)|]|];
    rewrite ?st_of_after, ?_say_online_st; exact H1.
Qed.

(** The cache file depends on the text only through the absolute value
    of its hash: in online mode, once a text has been synthesised, any
    other non-empty text with the same absolute hash is taken for cached
    and the file of the first text is played for it, without a
    synthesis of its own. *)
Theorem hash_collision_plays_other_text
        (self : TTSEngine) (files : gset string) (text1 text2 : string)
        (env1 env2 : Env) :
  mode self <> "offline" ->
  text1 <> "" -> text2 <> "" ->
  Z.abs (hash text1) = Z.abs (hash text2) ->
  gtts_save env1 = Saved ->
  acts_of (say (st_of (say self files text1 env1))
               (files_of (say self files text1 env1)) text2 env2)
  = [Playsound (mp3_path_of self text1)].
Proof.
  intros Hm H1 H2 Hh Hg.
  rewrite (say_online_path _ _ _ _ _ _ H1 Hm), _say_online_st.
  rewrite (say_online_path _ _ _ _ _ _ H2 Hm).
  assert (mp3_path_of self text2 = mp3_path_of self text1) as Hp
    by (unfold TTS.mp3_path_of, cache_key; now rewrite Hh).
  rewrite _say_online_acts, _say_online_files, Hp, Hg.
  destruct (decide (mp3_path_of self text1 ∈ files)) as [Hin | Hout].
  - now rewrite (decide_True _ _ Hin).
  - now rewrite decide_True by set_solver.
Qed.

Lemma say_all_cons self files text env rest :
  say_all self files ((text, env) :: rest)
  = after (acts_of (say self files text env))
          (say_all (st_of (say self files text env))
                   (files_of (say self files text env)) rest).
Proof.
  cbn [TTSSetup.say_all].
  destruct (say self files text env) as [[s1 f1] a1]. cbn.
  now destruct (say_all s1 f1 rest) as [[s2 f2] a2].
Qed.

Lemma say_keeps_engine self files text env :
  offline_has_engine self ->
  offline_has_engine (st_of (say self files text env)).
Proof.
  unfold offline_has_engine. rewrite say_mode. intros H Hm.
  specialize (H Hm). unfold TTS.say.
  destruct (negb (truthy text)); [exact H|].
  rewrite Hm, (bool_decide_eq_true_2 _ H). cbn.
  now apply _say_offline_engine.
Qed.

(** The mode of an engine is decided when it is constructed: offline
    exactly when the configured mode is offline (or missing), pyttsx3
    could be imported and the engine could be set up. *)
Theorem constructed_offline_iff
        (expanduser : string -> string)
        (cfg : Config) (sections : Sections) (env : TTSSetup.Env) :
  mode (fst (__init__ expanduser cfg sections env)) = "offline" <->
  default "offline" (tts_mode sections) = "offline" /\
  pyttsx3 env = true /\
  is_Some (init_engine env).
Proof.
  unfold __init__.
  destruct (default "offline" (tts_mode sections) =? "offline") eqn:E.
  - apply String.eqb_eq in E.
    destruct (pyttsx3 env); cbn [andb negb].
    + destruct (init_engine env) as [h|]; cbn.
      * split; [intros _; repeat split; eauto | intros _; exact E].
      * split; [discriminate | intros (_ & _ & [? ?]); discriminate].
    + cbn. split; [discriminate | intros (_ & ? & _); discriminate].
  - apply String.eqb_neq in E. cbn. tauto.
Qed.

(** From its construction on and through any run of [say] calls, an
    engine keeps the mode decided at construction, and in offline mode
    it always holds an engine handle. *)
Theorem engine_lifetime
        (expanduser : string -> string)
        (cfg : Config) (sections : Sections) (env : TTSSetup.Env)
        (files : gset string) (calls : list (string * Env)) :
  mode (st_of (say_all (fst (__init__ expanduser cfg sections env)) files calls))
  = mode (fst (__init__ expanduser cfg sections env)) /\
  offline_has_engine
    (st_of (say_all (fst (__init__ expanduser cfg sections env)) files calls)).
Proof.
  assert (offline_has_engine (fst (__init__ expanduser cfg sections env))) as H0.
  { unfold offline_has_engine, __init__.
    destruct (default "offline" (tts_mode sections) =? "offline") eqn:E,
      (pyttsx3 env), (init_engine env);
      cbn; intros Hm; try discriminate; eauto;
      apply String.eqb_neq in E; contradiction. }
  revert H0. generalize (fst (__init__ expanduser cfg sections env)).
  intros self. revert self files.
  induction calls as [|[text e] rest IH]; intros self files H0.
  - split; [reflexivity | exact H0].
  - rewrite say_all_cons, st_of_after.
    destruct (IH (st_of (say self files text e))
                 (files_of (say self files text e))
                 (say_keeps_engine _ _ _ _ H0)) as [Hm Hk].
    split; [now rewrite Hm, say_mode | exact Hk].
Qed.

(** An engine whose mode is not offline never uses the offline engine,
    whatever is said and however often. *)
Theorem online_never_goes_offline
        (self : TTSEngine) (files : gset string)
        (calls : list (string * Env)) :
  mode self <> "offline" ->
  forallb (fun a => negb (is_engine_action a))
          (acts_of (say_all self files calls)) = true.
Proof.
  revert self files. induction calls as [|[text e] rest IH];
    intros self files Hm; [reflexivity|].
  rewrite say_all_cons, acts_of_after, forallb_app.
  rewrite IH by now rewrite say_mode.
  rewrite andb_true_r. apply String.eqb_neq in Hm.
  unfold TTS.say. rewrite Hm. cbn [andb].
  destruct (negb (truthy text)); [reflexivity|].
  rewrite _say_online_acts. case_decide; [reflexivity|].
  now destruct (gtts_save e).
Qed.

End TTSMore.


(** ** More on the assistant *)

Section AssistantMore.

Import Control Assistant.

Variable hash : string -> Z.
Variable path_join : string -> string -> string.

Context `{py : Builtins}.

#[local] Abbreviation on_stt_result := (Assistant.on_stt_result hash path_join).
#[local] Abbreviation handle_user_text :=
  (Assistant.handle_user_text hash path_join).
#[local] Abbreviation speak := (Assistant.speak hash path_join).
#[local] Abbreviation say := (TTS.say hash path_join).

(** The trace of [route_command] in terms of [handle_command]. *)
Lemma route_command_eq self text env :
  route_command self text env
  = let a := Commands.handle_command text (cfg self) (host env) in
    if Commands.handled a
    then (Returns (Commands.response a), map Os (Commands.actions a))
    else if gpt_enabled self
         then (match query_gpt text env with
               | Returns answer => Returns answer
               | Raises _ => Returns apology
               end, [GptRequest text])
         else (Returns not_understood, []).
Proof.
  unfold route_command. cbv zeta.
  pose proof (unhandled_command_answer text (cfg self) (host env)) as Hin.
  destruct (Commands.handle_command text (cfg self) (host env))
    as [[handled resp] acts].
  unfold Commands.handled, Commands.response, Commands.actions in *.
  cbn [fst snd] in *. destruct handled; [reflexivity|].
  destruct (Hin eq_refl) as [-> ->]. cbn [map app].
  destruct (gpt_enabled self); [|reflexivity].
  now destruct (query_gpt text env).
Qed.

(** The trace of [handle_user_text], given what [route_command]
    returns. *)
Lemma handle_user_text_eq self files text env response routed :
  route_command self text env = (Returns response, routed) ->
  handle_user_text self files text env
  = if truthy response
    then (set_tts_engine
            (TTS.st_of (say (tts_engine self) files response (tts_env env)))
            self,
          TTS.files_of (say (tts_engine self) files response (tts_env env)),
          emit (transcript "user" text) ++ log_jsonl self env "user" text
          ++ routed
          ++ map Tts (TTS.acts_of
                        (say (tts_engine self) files response (tts_env env)))
          ++ emit (transcript "assistant" response)
          ++ log_jsonl self env "assistant" response)
    else ((self, files),
          emit (transcript "user" text) ++ log_jsonl self env "user" text ++ routed).
Proof.
  intros Hr. unfold Assistant.handle_user_text, Assistant.speak. rewrite Hr.
  cbv zeta. destruct (truthy response); [|now rewrite <- ?app_assoc].
  destruct (say (tts_engine self) files response (tts_env env))
    as [[t f] acts].
  unfold TTS.st_of, TTS.files_of, TTS.acts_of. cbn [fst snd].
  now rewrite <- ?app_assoc.
Qed.

(** A command that a built-in rule handles is always answered: the
    response is spoken, shown as the assistant's transcript and logged,
    after the actions of the command. *)
Theorem handled_command_is_answered
        (self : Assistant) (files : gset string) (text : string) (env : Env) :
  Commands.handled (Commands.handle_command text (cfg self) (host env)) = true ->
  snd (handle_user_text self files text env)
  = emit (transcript "user" text) ++ log_jsonl self env "user" text
    ++ map Os (Commands.actions
                 (Commands.handle_command text (cfg self) (host env)))
    ++ map Tts (TTS.acts_of
                  (say (tts_engine self) files
                       (Commands.response
                          (Commands.handle_command text (cfg self) (host env)))
                       (tts_env env)))
    ++ emit (transcript "assistant"
               (Commands.response
                  (Commands.handle_command text (cfg self) (host env))))
    ++ log_jsonl self env "assistant"
         (Commands.response
            (Commands.handle_command text (cfg self) (host env))).
Proof.
  intros Hh.
  pose proof (handled_response_not_empty _ _ _ Hh) as Hne.
  pose proof (route_command_eq self text env) as Hr. cbv zeta in Hr.
  rewrite Hh in Hr. rewrite (handle_user_text_eq _ _ _ _ _ _ Hr).
  now rewrite (truthy_nonempty _ Hne).
Qed.

Lemma gpt_requests_app (l1 l2 : list effect) :
  gpt_requests (l1 ++ l2) = gpt_requests l1 ++ gpt_requests l2.
Proof. apply omap_app. Qed.

Lemma gpt_requests_Os (l : list Commands.os_action) :
  gpt_requests (map Os l) = [].
Proof. induction l; [reflexivity | assumption]. Qed.

Lemma gpt_requests_Tts (l : list TTS.tts_action) :
  gpt_requests (map Tts l) = [].
Proof. induction l; [reflexivity | assumption]. Qed.

Lemma gpt_requests_log_jsonl self env role text :
  gpt_requests (log_jsonl self env role text) = [].
Proof.
  unfold log_jsonl. destruct (jsonl_path self) as [p|];
    [destruct (truthy p); [destruct (jsonl_append env role text)|]|];
    reflexivity.
Qed.

(** The requests of [handle_user_text] are those of [route_command]. *)
Lemma gpt_requests_handle_user_text self files text env :
  gpt_requests (snd (handle_user_text self files text env))
  = gpt_requests (snd (route_command self text env)).
Proof.
  destruct (route_command self text env) as [[response|e] routed] eqn:Hr.
  - rewrite (handle_user_text_eq _ _ _ _ _ _ Hr).
    destruct (truthy response); cbn [snd];
      rewrite !gpt_requests_app, ?gpt_requests_Tts, ?gpt_requests_log_jsonl,
        ?app_nil_r; reflexivity.
  - unfold Assistant.handle_user_text. rewrite Hr. cbn [snd].
    now rewrite !gpt_requests_app, gpt_requests_log_jsonl.
Qed.

(** The hosted model is asked only about a text that no built-in rule
    handles, only when it is enabled, and then once, with the text as
    it was given. *)
Theorem gpt_asked_only_when_unhandled
        (self : Assistant) (files : gset string) (text : string) (env : Env) :
  gpt_requests (snd (handle_user_text self files text env))
  = if Commands.handled (Commands.handle_command text (cfg self) (host env))
    then []
    else if gpt_enabled self then [text] else [].
Proof.
  rewrite gpt_requests_handle_user_text, route_command_eq. cbv zeta.
  destruct (Commands.handled _); [apply gpt_requests_Os|].
  destruct (gpt_enabled self); reflexivity.
Qed.

Lemma transcripts_app (l1 l2 : list effect) :
  transcripts (l1 ++ l2) = transcripts l1 ++ transcripts l2.
Proof. apply omap_app. Qed.

Lemma audit_lines_app p (l1 l2 : list effect) :
  audit_lines p (l1 ++ l2) = audit_lines p l1 ++ audit_lines p l2.
Proof. apply omap_app. Qed.

Lemma transcripts_Os (l : list Commands.os_action) : transcripts (map Os l) = [].
Proof. induction l; [reflexivity | assumption]. Qed.

Lemma transcripts_Tts (l : list TTS.tts_action) : transcripts (map Tts l) = [].
Proof. induction l; [reflexivity | assumption]. Qed.

Lemma audit_lines_Os p (l : list Commands.os_action) :
  audit_lines p (map Os l) = [].
Proof. induction l; [reflexivity | assumption]. Qed.

Lemma audit_lines_Tts p (l : list TTS.tts_action) :
  audit_lines p (map Tts l) = [].
Proof. induction l; [reflexivity | assumption]. Qed.

Lemma transcripts_log_jsonl self env role text :
  transcripts (log_jsonl self env role text) = [].
Proof.
  unfold log_jsonl. destruct (jsonl_path self) as [p|];
    [destruct (truthy p); [destruct (jsonl_append env role text)|]|];
    reflexivity.
Qed.

Lemma audit_lines_log_jsonl self env p role text :
  jsonl_path self = Some p -> p <> "" ->
  audit_lines p (log_jsonl self env role text)
  = List.filter (appended env) [(role, text)].
Proof.
  intros Hp Hne. unfold log_jsonl. rewrite Hp, (truthy_nonempty _ Hne).
  unfold appended. cbn.
  destruct (jsonl_append env role text); [|reflexivity].
  cbn. now rewrite String.eqb_refl.
Qed.

Lemma filter_all {A} (f : A -> bool) (l : list A) :
  (forall x, f x = true) -> List.filter f l = l.
Proof.
  intros H. induction l as [|x l IH]; [reflexivity|].
  cbn. now rewrite H, IH.
Qed.

(** What [route_command] leaves in the trace holds neither a transcript
    nor a log line. *)
Lemma route_command_routed self text env :
  exists response routed,
    route_command self text env = (Returns response, routed) /\
    transcripts routed = [] /\
    (forall p, audit_lines p routed = []).
Proof.
  rewrite route_command_eq. cbv zeta.
  destruct (Commands.handled _).
  - do 2 eexists. split; [reflexivity|].
    split; [apply transcripts_Os | intros p; apply audit_lines_Os].
  - destruct (gpt_enabled self); [destruct (query_gpt text env)|];
      do 2 eexists;
      (split; [reflexivity | split; [reflexivity | intros p; reflexivity]]).
Qed.

(** With a log file configured, the JSON-lines log follows the
    transcript: an utterance appends one line per transcript event
    whose line can be written, with the same role and text and in the
    same order, for typed text and for speech alike; a line that
    cannot be written is left out and nothing else changes.  When
    every line can be written, the log mirrors the transcript. *)
Theorem audit_log_mirrors_transcript
        (self : Assistant) (files : gset string) (text : string) (env : Env)
        (path : string) :
  jsonl_path self = Some path ->
  path <> "" ->
  (audit_lines path (snd (handle_user_text self files text env))
   = List.filter (appended env)
       (transcripts (snd (handle_user_text self files text env))) /\
   audit_lines path (snd (on_stt_result self files text env))
   = List.filter (appended env)
       (transcripts (snd (on_stt_result self files text env)))) /\
  ((forall role line, jsonl_append env role line = true) ->
   audit_lines path (snd (handle_user_text self files text env))
   = transcripts (snd (handle_user_text self files text env)) /\
   audit_lines path (snd (on_stt_result self files text env))
   = transcripts (snd (on_stt_result self files text env))).
Proof.
  intros Hp Hne.
  assert (forall t,
             audit_lines path (snd (handle_user_text self files t env))
             = List.filter (appended env)
                 (transcripts (snd (handle_user_text self files t env)))) as H.
  { intros t.
    destruct (route_command_routed self t env)
      as (response & routed & Hr & Ht & Ha).
    rewrite (handle_user_text_eq _ _ _ _ _ _ Hr).
    destruct (truthy response); cbn [snd];
      rewrite !audit_lines_app, !transcripts_app,
        ?audit_lines_Tts, ?transcripts_Tts, ?Ha, ?Ht,
        ?transcripts_log_jsonl,
        ?(audit_lines_log_jsonl _ _ _ _ _ Hp Hne);
      unfold appended; cbn;
      repeat destruct (jsonl_append env _ _); reflexivity. }
  assert (audit_lines path (snd (on_stt_result self files text env))
          = List.filter (appended env)
              (transcripts (snd (on_stt_result self files text env)))) as H'.
  { unfold Assistant.on_stt_result.
    destruct (negb (truthy text)); [reflexivity|].
    destruct (contains _ _); [|apply H].
    destruct (negb (truthy _)); [reflexivity|].
    specialize (H (strip (replace (wake_word_of (cfg self)) ""
                            (lower (strip text))))).
    destruct (handle_user_text _ _ _ _) as [st effs]. cbn [snd] in *.
    now rewrite audit_lines_app, transcripts_app, H. }
  split; [split; [apply H | exact H']|].
  intros Hall. rewrite H, H'.
  split; apply filter_all; intros [role line]; apply Hall.
Qed.

(** With the hosted model disabled, every text gets exactly one answer,
    which is not empty: the transcript of the call is the text of the
    user followed by the answer of the assistant. *)
Theorem always_answers_without_gpt
        (self : Assistant) (files : gset string) (text : string) (env : Env) :
  gpt_enabled self = false ->
  exists answer,
    answer <> "" /\
    fst (route_command self text env) = Returns answer /\
    transcripts (snd (handle_user_text self files text env))
    = [("user", text); ("assistant", answer)].
Proof.
  intros Hg.
  pose proof (route_command_eq self text env) as He. cbv zeta in He.
  rewrite Hg in He.
  assert (exists answer routed,
             route_command self text env = (Returns answer, routed) /\
             answer <> "" /\ transcripts routed = [])
    as (answer & routed & Hr & Hne & Ht).
  { destruct (Commands.handled _) eqn:Hh.
    - do 2 eexists. split; [exact He|].
      split; [now apply handled_response_not_empty | apply transcripts_Os].
    - do 2 eexists. split; [exact He|]. split; [discriminate | reflexivity]. }
  exists answer. split; [exact Hne|]. split; [now rewrite Hr|].
  rewrite (handle_user_text_eq _ _ _ _ _ _ Hr), (truthy_nonempty _ Hne).
  cbn [snd].
  now rewrite !transcripts_app, Ht, transcripts_Tts, !transcripts_log_jsonl.
Qed.

(** An utterance changes nothing of the assistant but the record of the
    speech engine, and of that record never the mode. *)
Theorem utterance_keeps_settings
        (self : Assistant) (files : gset string) (text : string) (env : Env) :
  cfg (fst (fst (on_stt_result self files text env))) = cfg self /\
  gpt_enabled (fst (fst (on_stt_result self files text env)))
  = gpt_enabled self /\
  jsonl_path (fst (fst (on_stt_result self files text env)))
  = jsonl_path self /\
  TTS.mode (tts_engine (fst (fst (on_stt_result self files text env))))
  = TTS.mode (tts_engine self).
Proof.
  assert (forall t,
             let st := fst (fst (handle_user_text self files t env)) in
             cfg st = cfg self /\ gpt_enabled st = gpt_enabled self /\
             jsonl_path st = jsonl_path self /\
             TTS.mode (tts_engine st) = TTS.mode (tts_engine self)) as H.
  { intros t. cbv zeta.
    destruct (route_command_routed self t env) as (response & routed & Hr & _).
    rewrite (handle_user_text_eq _ _ _ _ _ _ Hr).
    destruct (truthy response); cbn [fst set_tts_engine cfg gpt_enabled
                                       jsonl_path tts_engine];
      repeat split; apply say_mode. }
  unfold Assistant.on_stt_result.
  destruct (negb (truthy text)); [repeat split|].
  destruct (contains _ _); [|apply H].
  destruct (negb (truthy _)); [repeat split|].
  specialize (H (strip (replace (wake_word_of (cfg self)) ""
                          (lower (strip text))))).
  now destruct (handle_user_text _ _ _ _) as [st effs].
Qed.

(** The wake word is not required: a non-empty utterance that does not
    contain it is passed on whole, trimmed and in lowercase, also when
    that leaves the empty text. *)
Theorem utterance_without_wake_word_is_routed
        (self : Assistant) (files : gset string) (text : string) (env : Env) :
  text <> "" ->
  contains (wake_word_of (cfg self)) (lower (strip text)) = false ->
  routed_texts (snd (on_stt_result self files text env))
  = [lower (strip text)].
Proof.
  intros Ht Hc. unfold Assistant.on_stt_result.
  rewrite (truthy_nonempty _ Ht), Hc. cbn [negb].
  apply routed_texts_handle_user_text.
Qed.

(** An assistant constructed without any API key, in the configuration
    or in the environment, never sends anything to the hosted model. *)
Theorem without_key_never_asks
        (self : Assistant) (files : gset string) (text : string) (env : Env)
        (gpt_cfg : Section_gpt) (environ : string -> option string) :
  gpt_enabled self = init_gpt_enabled gpt_cfg environ ->
  default "" (gpt_api_key gpt_cfg) = "" ->
  default "" (environ (default "OPENAI_API_KEY" (gpt_env_api_key gpt_cfg)))
  = "" ->
  gpt_requests (snd (handle_user_text self files text env)) = [].
Proof.
  intros Hg Hk He.
  assert (gpt_enabled self = false) as Hoff.
  { rewrite Hg. unfold init_gpt_enabled. rewrite Hk, He. cbn.
    now destruct (default false (gpt_enabled_key gpt_cfg)). }
  rewrite gpt_requests_handle_user_text, route_command_eq. cbv zeta.
  rewrite Hoff. destruct (Commands.handled _); [apply gpt_requests_Os|].
  reflexivity.
Qed.

End AssistantMore.


(** ** Speech recognition and the microphone switch *)

Section SpeechFacts.

Import Control Speech Assistant.

Context `{py : Builtins}.

(** The engine that recognition falls back to, by the models held. *)
Lemma recognize_without_model self cfg jsonlib env :
  whisper_model self = None ->
  vosk_model self = None ->
  recognize self cfg jsonlib env
  = _recognize_google (default "en" (app_language_preference cfg)) env.
Proof.
  intros Hw Hv. unfold recognize. rewrite Hw, Hv.
  destruct (offline_mode self); [|reflexivity].
  rewrite !bool_decide_eq_false_2 by (intros [? ?]; discriminate).
  now rewrite !andb_false_r.
Qed.

Lemma constructed_engine_holds
        (cfg : Config) (stt : Section_stt) (lenv : LoadEnv)
        (self : SpeechEngine) :
  Speech.__init__ cfg stt lenv = Returns self ->
  running self = false /\
  (whisper_model self = None \/ vosk_model self = None) /\
  (is_Some (whisper_model self) ->
   offline_mode self = true /\ offline_engine self = "whisper" /\
   whisper lenv = true) /\
  (is_Some (vosk_model self) ->
   offline_mode self = true /\ offline_engine self = "vosk" /\
   vosk lenv = true).
Proof.
  unfold Speech.__init__.
  generalize (default "offline" (stt_mode stt) =? "offline").
  generalize (default "whisper" (stt_preferred_offline_engine stt)).
  intros eng offline.
  assert (forall A (P : Prop), @is_Some A None -> P) as Hno
    by (intros A P [? ?]; discriminate).
  assert (forall w v : option nat,
             (w = None \/ v = None) ->
             (is_Some w -> offline = true /\ eng = "whisper" /\ whisper lenv = true) ->
             (is_Some v -> offline = true /\ eng = "vosk" /\ vosk lenv = true) ->
             Returns
               {| offline_mode := offline; offline_engine := eng;
                  whisper_model := w; vosk_model := v;
                  running := false; thread := false |} = Returns self ->
             running self = false /\
             (whisper_model self = None \/ vosk_model self = None) /\
             (is_Some (whisper_model self) ->
              offline_mode self = true /\ offline_engine self = "whisper" /\
              whisper lenv = true) /\
             (is_Some (vosk_model self) ->
              offline_mode self = true /\ offline_engine self = "vosk" /\
              vosk lenv = true)) as Hmade.
  { intros w v H1 H2 H3 [= <-]. cbn. auto. }
  assert (forall w : option nat, w = None \/ @None nat = None) as Hr by auto.
  assert (forall v : option nat, @None nat = None \/ v = None) as Hl by auto.
  destruct offline; [|apply Hmade; auto; apply Hno].
  destruct (eng =? "whisper") eqn:Ew.
  - apply String.eqb_eq in Ew.
    destruct (whisper lenv) eqn:Hw; cbn [andb].
    + destruct (stt_whisper stt); [|discriminate].
      apply Hmade; auto; apply Hno.
    + destruct (eng =? "vosk") eqn:Ev;
        [subst eng; discriminate | cbn [andb]].
      apply Hmade; auto; apply Hno.
  - cbn [andb]. destruct (eng =? "vosk") eqn:Ev;
      [|apply Hmade; auto; apply Hno].
    apply String.eqb_eq in Ev.
    destruct (vosk lenv) eqn:Hv; cbn [andb]; [|apply Hmade; auto; apply Hno].
    destruct (stt_vosk stt) as [table|]; [|discriminate].
    destruct (isdir lenv _); apply Hmade; auto; apply Hno.
Qed.

(** A constructed engine holds at most one model, and holds a model
    only in offline mode, for the engine named in the configuration,
    when the module of that engine could be imported. *)
Theorem constructed_engine_models
        (cfg : Config) (stt : Section_stt) (lenv : LoadEnv)
        (self : SpeechEngine) :
  Speech.__init__ cfg stt lenv = Returns self ->
  running self = false /\
  (whisper_model self = None \/ vosk_model self = None) /\
  (is_Some (whisper_model self) ->
   offline_mode self = true /\ offline_engine self = "whisper" /\
   whisper lenv = true) /\
  (is_Some (vosk_model self) ->
   offline_mode self = true /\ offline_engine self = "vosk" /\
   vosk lenv = true).
Proof. apply constructed_engine_holds. Qed.


(** Without a model, speech that the hosted recognition does not
    understand, or a request to it that fails, gives the empty text and
    no exception; and the language asked for is Tamil for the preference
    "ta" and US English for any other. *)
Theorem hosted_recognition_failure_is_empty_text
        (self : SpeechEngine) (cfg : Config) (jsonlib : bool)
        (env : Speech.Env) :
  whisper_model self = None ->
  vosk_model self = None ->
  recognize_google env = UnknownValueError \/
  (exists e, recognize_google env = RequestError e) ->
  recognize self cfg jsonlib env
  = (Returns "",
     [GoogleRequest (if default "en" (app_language_preference cfg) =? "ta"
                     then "ta-IN" else "en-US")]).
Proof.
  intros Hw Hv Hg. rewrite (recognize_without_model _ _ _ _ Hw Hv).
  unfold _recognize_google. now destruct Hg as [-> | [e ->]].
Qed.

Lemma is_called_Stt (l : list stt_action) : existsb is_called (map Stt l) = false.
Proof. induction l; [reflexivity | assumption]. Qed.

(** One round of the listening loop reaches the assistant only when
    audio was heard and recognised as a non-empty text; the round is
    then the recognition followed by [on_stt_result] on that text. *)
Theorem round_reaches_assistant_only_with_text
        (hash : string -> Z) (path_join : string -> string -> string)
        (self : SpeechEngine) (jsonlib : bool)
        (assistant : Assistant) (files : gset string)
        (heard : listen_outcome) (env : Speech.Env) (aenv : Assistant.Env) :
  fst (listen_round hash path_join self jsonlib assistant files heard env aenv)
  <> (assistant, files) \/
  existsb is_called
    (snd (listen_round hash path_join self jsonlib assistant files heard env aenv))
  = true ->
  heard = Audio /\
  exists text,
    text <> "" /\
    fst (recognize self (cfg assistant) jsonlib env) = Returns text /\
    listen_round hash path_join self jsonlib assistant files heard env aenv
    = (fst (on_stt_result hash path_join assistant files text aenv),
       map Stt (snd (recognize self (cfg assistant) jsonlib env))
       ++ map Called (snd (on_stt_result hash path_join assistant files text aenv))).
Proof.
  unfold listen_round.
  destruct heard; cbn [fst snd existsb];
    try (intros [H | H]; [congruence | discriminate]).
  destruct (recognize self (cfg assistant) jsonlib env) as [[text|e] acts];
    cbn [fst snd].
  - destruct text as [|c text]; cbn [truthy].
    + cbn [fst snd]. rewrite is_called_Stt.
      intros [H | H]; [congruence | discriminate].
    + intros _. split; [reflexivity|]. exists (String c text).
      split; [discriminate|]. split; [reflexivity|].
      now destruct (on_stt_result _ _ _ _ _ _).
  - rewrite is_called_Stt. intros [H | H]; [congruence | discriminate].
Qed.

Lemma toggles_cons self enable rest :
  toggles self (enable :: rest)
  = (fst (toggles (fst (on_gui_mic_toggle self enable)) rest),
     snd (on_gui_mic_toggle self enable)
     ++ snd (toggles (fst (on_gui_mic_toggle self enable)) rest)).
Proof.
  cbn [toggles]. destruct (on_gui_mic_toggle self enable) as [m1 e1].
  cbn [fst snd]. now destruct (toggles m1 rest).
Qed.

Lemma statuses_app l1 l2 : statuses (l1 ++ l2) = statuses l1 ++ statuses l2.
Proof. apply omap_app. Qed.

Lemma statuses_Thread (l : list thread_action) : statuses (map Thread l) = [].
Proof. induction l; [reflexivity | assumption]. Qed.

(** What one toggle does to the switch and to the status line. *)
Lemma on_gui_mic_toggle_status self enable :
  listening (fst (on_gui_mic_toggle self enable)) = enable /\
  statuses (snd (on_gui_mic_toggle self enable))
  = if Bool.eqb (listening self) enable then []
    else [if enable then "Listening..." else "Mic muted"].
Proof.
  unfold on_gui_mic_toggle, Control.start_listening, Control.stop_listening,
    Speech.start_listening, Speech.stop_listening.
  destruct enable, (listening self) eqn:E; cbn [negb Bool.eqb];
    try (split; [exact E | reflexivity]).
  - destruct (running (stt_engine self)); cbn; split; reflexivity.
  - cbn. split; [reflexivity|]. rewrite statuses_app, statuses_Thread.
    reflexivity.
Qed.

(** However the microphone is toggled, the status messages take turns:
    "Listening..." and "Mic muted" alternate, beginning with the one
    that changes the state the switch is in. *)
Theorem status_messages_take_turns (self : Mic) (enables : list bool) :
  takes_turns (negb (listening self)) (statuses (snd (toggles self enables)))
  = true.
Proof.
  revert self. induction enables as [|enable rest IH]; intros self;
    [reflexivity|].
  rewrite toggles_cons. cbn [snd]. rewrite statuses_app.
  destruct (on_gui_mic_toggle_status self enable) as [Hl Hs].
  specialize (IH (fst (on_gui_mic_toggle self enable))).
  rewrite Hl in IH. rewrite Hs.
  destruct (listening self), enable; cbn [Bool.eqb negb app takes_turns] in *;
    try exact IH; now rewrite IH.
Qed.

(** When the switch of the assistant and the flag of the speech engine
    agree, they still agree after any run of toggles, and a listening
    thread was started exactly as often as "Listening..." was shown. *)
Theorem mic_switch_stays_consistent (self : Mic) (enables : list bool) :
  listening self = running (stt_engine self) ->
  listening (fst (toggles self enables))
  = running (stt_engine (fst (toggles self enables))) /\
  length (List.filter is_thread_start (snd (toggles self enables)))
  = length (List.filter (String.eqb "Listening...")
              (statuses (snd (toggles self enables)))).
Proof.
  revert self. induction enables as [|enable rest IH]; intros self Hc;
    [split; [exact Hc | reflexivity]|].
  rewrite toggles_cons. cbn [fst snd].
  assert (listening (fst (on_gui_mic_toggle self enable))
          = running (stt_engine (fst (on_gui_mic_toggle self enable))) /\
          length (List.filter is_thread_start (snd (on_gui_mic_toggle self enable)))
          = length (List.filter (String.eqb "Listening...")
                      (statuses (snd (on_gui_mic_toggle self enable)))))
    as [H1 H2].
  { unfold on_gui_mic_toggle, Control.start_listening, Control.stop_listening,
      Speech.start_listening, Speech.stop_listening.
    rewrite <- Hc.
    destruct enable, (listening self) eqn:E; cbn [negb];
      try (split; [cbn; congruence | reflexivity]).
    all: destruct (thread (stt_engine self)); split; reflexivity. }
  destruct (IH _ H1) as [H3 H4]. split; [exact H3|].
  rewrite statuses_app, !List.filter_app, !length_app. congruence.
Qed.

(** After [shutdown] the switch is off and the speech engine is not
    running, whatever the state before. *)
Theorem shutdown_stops_listening (self : Mic) (t : TTS.TTSEngine) :
  listening (fst (Control.shutdown self t)) = false /\
  running (stt_engine (fst (Control.shutdown self t))) = false /\
  statuses (snd (Control.shutdown self t))
  = if listening self then ["Mic muted"] else [].
Proof.
  unfold Control.shutdown, Control.stop_listening, Speech.shutdown,
    Speech.stop_listening, tts_shutdown.
  destruct (listening self) eqn:E; cbn [negb]; cbn; rewrite ?E;
    repeat split;
    rewrite ?statuses_app, ?statuses_Thread;
    destruct (thread (stt_engine self)), (TTS.engine t); reflexivity.
Qed.

End SpeechFacts.


(** ** Escaping of transcript text *)

Section GuiFacts.

Import Gui.

#[local] Arguments String.append !s1 s2 : simpl nomatch.

(** [replace] of a single character works character by character. *)
Lemma replace_one_char (c : ascii) (new text : string) :
  replace (String c "") new text = substitute c new text.
Proof.
  unfold replace. induction text as [|x text IH]; [reflexivity|].
  cbn [replace_scan substitute]. unfold startswith. cbn [String.prefix].
  destruct (ascii_dec c x) as [<- | Hne].
  - rewrite Ascii.eqb_refl.
    replace (String.prefix "" text) with true by now destruct text.
    cbn [String.length Nat.sub]. now rewrite IH.
  - assert (Ascii.eqb x c = false) as -> by (apply Ascii.eqb_neq; congruence).
    now rewrite IH.
Qed.

Lemma append_assoc (a b c : string) : (a +:+ b) +:+ c = a +:+ (b +:+ c).
Proof. induction a as [|x a IH]; cbn; [reflexivity | now rewrite IH]. Qed.

Lemma substitute_append (c : ascii) (new a b : string) :
  substitute c new (a +:+ b) = substitute c new a +:+ substitute c new b.
Proof.
  induction a as [|x a IH]; [reflexivity|].
  cbn [String.append substitute]. rewrite IH.
  destruct (Ascii.eqb x c); [now rewrite append_assoc | reflexivity].
Qed.

Lemma escape_one_char (c : ascii) :
  substitute (ascii_of_nat 10) "<br>"
    (substitute ">" "&gt;"
       (substitute "<" "&lt;"
          (if Ascii.eqb c "&" then "&amp;" else String c "")))
  = escape_char c.
Proof. destruct c as [[] [] [] [] [] [] [] []]; reflexivity. Qed.

Lemma html_escape_each (text : string) :
  _html_escape text = escape_each text.
Proof.
  unfold _html_escape, Commands.nl.
  change "&" with (String "&"%char "").
  change "<" with (String "<"%char "").
  change ">" with (String ">"%char "").
  rewrite !replace_one_char.
  induction text as [|c text IH]; [reflexivity|].
  cbn [substitute escape_each].
  rewrite !substitute_append, IH. now rewrite escape_one_char.
Qed.

(** The four replacements of [_html_escape], made one after the other
    on the whole text, come to one pass over the text that escapes each
    character on its own: an entity produced for one character is never
    touched by a later replacement.  So escaping a text in pieces and
    joining the results is escaping the whole text. *)
Theorem html_escape_is_one_pass (text rest : string) :
  _html_escape text = escape_each text /\
  _html_escape (text +:+ rest) = _html_escape text +:+ _html_escape rest.
Proof.
  rewrite !html_escape_each. split; [reflexivity|].
  induction text as [|c text IH]; [reflexivity|].
  cbn [String.append escape_each]. now rewrite IH, append_assoc.
Qed.

Lemma occurrences_append (c : ascii) (a b : string) :
  occurrences c (a +:+ b) = (occurrences c a + occurrences c b)%nat.
Proof.
  induction a as [|x a IH]; [reflexivity|].
  cbn [String.append occurrences]. rewrite IH. lia.
Qed.

Lemma occurrences_escape_char (c : ascii) :
  occurrences "<" (escape_char c)
  = (if Ascii.eqb c (ascii_of_nat 10) then 1 else 0)%nat /\
  occurrences ">" (escape_char c)
  = (if Ascii.eqb c (ascii_of_nat 10) then 1 else 0)%nat.
Proof. destruct c as [[] [] [] [] [] [] [] []]; split; reflexivity. Qed.

(** The only angle brackets in an escaped text are those of the line
    breaks put in for newlines: there are as many "<" and as many ">" as
    the text has newlines, so a text without newline comes out without
    any. *)
Theorem html_escape_leaves_no_markup (text : string) :
  occurrences "<" (_html_escape text) = occurrences (ascii_of_nat 10) text /\
  occurrences ">" (_html_escape text) = occurrences (ascii_of_nat 10) text.
Proof.
  rewrite html_escape_each.
  induction text as [|c text [IH1 IH2]]; [split; reflexivity|].
  cbn [escape_each occurrences]. rewrite !occurrences_append, IH1, IH2.
  destruct (occurrences_escape_char c) as [-> ->]. split; reflexivity.
Qed.

(** The five shapes of an escaped character. *)
Lemma escape_char_cases (c : ascii) :
  (c = "&"%char /\ escape_char c = "&amp;") \/
  (c = "<"%char /\ escape_char c = "&lt;") \/
  (c = ">"%char /\ escape_char c = "&gt;") \/
  (c = ascii_of_nat 10 /\ escape_char c = "<br>") \/
  (c <> "&"%char /\ c <> "<"%char /\ escape_char c = String c "").
Proof.
  unfold escape_char.
  destruct (Ascii.eqb c "&") eqn:E1; [apply Ascii.eqb_eq in E1; auto|].
  destruct (Ascii.eqb c "<") eqn:E2; [apply Ascii.eqb_eq in E2; auto|].
  destruct (Ascii.eqb c ">") eqn:E3; [apply Ascii.eqb_eq in E3; auto 6|].
  destruct (Ascii.eqb c (ascii_of_nat 10)) eqn:E4;
    [apply Ascii.eqb_eq in E4; auto 8|].
  apply Ascii.eqb_neq in E1, E2. auto 10.
Qed.

Lemma escape_char_head (x y : ascii) (r1 r2 : string) :
  escape_char x +:+ r1 = escape_char y +:+ r2 -> x = y /\ r1 = r2.
Proof.
  destruct (escape_char_cases x)
    as [[-> ->] | [[-> ->] | [[-> ->] | [[-> ->] | (Hx1 & Hx2 & ->)]]]];
    destruct (escape_char_cases y)
      as [[-> ->] | [[-> ->] | [[-> ->] | [[-> ->] | (Hy1 & Hy2 & ->)]]]];
    cbn; intros H; try discriminate;
    try (injection H; intros; subst; auto; congruence).
Qed.

(** Escaping loses nothing: two texts that are escaped to the same text
    are the same text. *)
Theorem html_escape_is_injective (text1 text2 : string) :
  _html_escape text1 = _html_escape text2 -> text1 = text2.
Proof.
  rewrite !html_escape_each. revert text2.
  induction text1 as [|x text1 IH]; intros [|y text2]; cbn [escape_each].
  - reflexivity.
  - destruct (escape_char_cases y)
      as [[_ ->] | [[_ ->] | [[_ ->] | [[_ ->] | (_ & _ & ->)]]]];
      discriminate.
  - destruct (escape_char_cases x)
      as [[_ ->] | [[_ ->] | [[_ ->] | [[_ ->] | (_ & _ & ->)]]]];
      discriminate.
  - intros H. apply escape_char_head in H as [-> H]. f_equal. now apply IH.
Qed.

End GuiFacts.


(** ** Examples for the further properties *)

Section MoreExamples.

Import Commands.

#[local] Existing Instance ascii_text.

Lemma os_system_only_when_allowed_witness :
  allow_shutdown power_cfg = Some true /\
  contains "confirm" (lower "Confirm Shutdown") = true /\
  (contains "shutdown" (lower "Confirm Shutdown") = true /\
   "shutdown /s /t 1" = "shutdown /s /t 1" \/
   contains "shutdown" (lower "Confirm Shutdown") = false /\
   contains "restart" (lower "Confirm Shutdown") = true /\
   "shutdown /s /t 1" = "shutdown /r /t 1").
Proof.
  apply (os_system_only_when_allowed_and_confirmed (py := ascii_text)
           "Confirm Shutdown" power_cfg bare_host "shutdown /s /t 1").
  vm_compute. left. reflexivity.
Defined.

Lemma popen_only_configured_app_witness :
  startswith "open " (lower "Open Notepad") = true /\
  apps notepad_cfg !! replace "open " "" (lower "Open Notepad")
  = Some "notepad.exe".
Proof.
  apply (popen_only_configured_app (py := ascii_text)
           "Open Notepad" notepad_cfg bare_host).
  vm_compute. left. reflexivity.
Defined.

Lemma startfile_only_existing_music_path_witness :
  contains "play music" (lower "please play music") = true /\
  music_path power_cfg = Some "C:/Music/mix.mp3" /\
  "C:/Music/mix.mp3" <> "" /\
  path_exists music_host "C:/Music/mix.mp3" = true.
Proof.
  apply (startfile_only_existing_music_path (py := ascii_text)
           "please play music" power_cfg music_host).
  vm_compute. left. reflexivity.
Defined.

Lemma unhandled_command_is_inert_witness :
  handle_command "what time is it" power_cfg music_host
  = (false, "Command not recognized.", []).
Proof.
  apply (unhandled_command_is_inert (py := ascii_text)
           "what time is it" power_cfg music_host).
  reflexivity.
Defined.

Lemma confirmed_shutdown_before_restart_witness :
  handle_command "confirm restart, not shutdown" power_cfg bare_host
  = (true, "Shutting down system...", [OsSystem "shutdown /s /t 1"]).
Proof.
  apply (confirmed_shutdown_before_restart (py := ascii_text)
           "confirm restart, not shutdown" power_cfg bare_host);
    reflexivity.
Defined.

End MoreExamples.

Section MoreTTSExamples.

Import TTSSetup TTS.

Lemma say_plays_cached_file_witness :
  "./runtime/tts_cache/en_2.mp3"
  = mp3_path_of toy_hash slash_join
      (st_of (say toy_hash slash_join online_engine ∅ "hi" fair_env)) "hi" /\
  "./runtime/tts_cache/en_2.mp3"
  ∈ files_of (say toy_hash slash_join online_engine ∅ "hi" fair_env).
Proof.
  apply (say_plays_cached_file toy_hash slash_join online_engine ∅ "hi" fair_env).
  vm_compute. right. right. left. reflexivity.
Defined.

Lemma online_say_ignores_language_change_witness :
  say toy_hash slash_join online_engine ∅ "hi" fair_env
  = say toy_hash slash_join online_engine ∅ "hi" tamil_env /\
  lang_pref (st_of (say toy_hash slash_join online_engine ∅ "hi" fair_env))
  = "en".
Proof.
  apply (online_say_ignores_language_change
           toy_hash slash_join online_engine ∅ "hi" fair_env tamil_env);
    [discriminate | reflexivity].
Defined.

Lemma offline_say_adopts_language_witness :
  lang_pref (st_of (say toy_hash slash_join offline_engine ∅ "hi" tamil_env))
  = "ta".
Proof.
  apply (offline_say_adopts_language
           toy_hash slash_join offline_engine ∅ "hi" tamil_env);
    [discriminate | reflexivity | now exists 0%nat].
Defined.

Lemma hash_collision_plays_other_text_witness :
  acts_of (say toy_hash slash_join
             (st_of (say toy_hash slash_join online_engine ∅ "hi" fair_env))
             (files_of (say toy_hash slash_join online_engine ∅ "hi" fair_env))
             "yo" network_down_env)
  = [Playsound (mp3_path_of toy_hash slash_join online_engine "hi")].
Proof.
  apply (hash_collision_plays_other_text
           toy_hash slash_join online_engine ∅ "hi" "yo"
           fair_env network_down_env);
    [discriminate | discriminate | discriminate | reflexivity | reflexivity].
Defined.

Lemma online_never_goes_offline_witness :
  forallb (fun a => negb (is_engine_action a))
    (acts_of (say_all toy_hash slash_join online_engine ∅
                [("hi", fair_env); ("yo", sapi_down_env)]))
  = true.
Proof.
  apply (online_never_goes_offline toy_hash slash_join online_engine ∅
           [("hi", fair_env); ("yo", sapi_down_env)]).
  discriminate.
Defined.

(** An engine constructed with the defaults on a machine where pyttsx3
    works, then used while the offline engine breaks down. *)
Example engine_lifetime_ex :
  let e := fst (__init__ (fun p => p) notepad_cfg default_sections sapi_env) in
  mode e = "offline" /\
  engine e = Some 0%nat /\
  acts_of (say_all toy_hash slash_join e ∅
             [("hi", sapi_down_env); ("yo", fair_env)])
  = [EngineSay 0 "hi"; EngineInit; PickVoice "en"; EngineSay 1 "hi";
     GttsSynth "hi" "en"; CacheWrite "./runtime/tts_cache/en_2.mp3";
     Playsound "./runtime/tts_cache/en_2.mp3";
     EngineSay 1 "yo"].
Proof. vm_compute. repeat split. Qed.

End MoreTTSExamples.

Section MoreAssistantExamples.

Import Control Speech Assistant.

#[local] Existing Instance ascii_text.

Lemma handled_command_is_answered_witness :
  snd (handle_user_text toy_hash slash_join crux ∅ "Open Notepad" gpt_down_env)
  = [Emit (transcript "user" "Open Notepad");
     AuditLine "./logs/crux.jsonl" "user" "Open Notepad";
     Os (Commands.Popen "notepad.exe");
     Tts (TTS.GttsSynth "Opening notepad." "en");
     Tts (TTS.CacheWrite "./runtime/tts_cache/en_16.mp3");
     Tts (TTS.Playsound "./runtime/tts_cache/en_16.mp3");
     Emit (transcript "assistant" "Opening notepad.");
     AuditLine "./logs/crux.jsonl" "assistant" "Opening notepad."].
Proof.
  rewrite (handled_command_is_answered (py := ascii_text)
             toy_hash slash_join crux ∅ "Open Notepad" gpt_down_env eq_refl).
  vm_compute. reflexivity.
Defined.

Lemma audit_log_mirrors_transcript_witness :
  audit_lines "./logs/crux.jsonl"
    (snd (handle_user_text toy_hash slash_join crux ∅ "hello" gpt_down_env))
  = transcripts
      (snd (handle_user_text toy_hash slash_join crux ∅ "hello" gpt_down_env)) /\
  audit_lines "./logs/crux.jsonl"
    (snd (on_stt_result toy_hash slash_join crux ∅ "hello" gpt_down_env))
  = transcripts
      (snd (on_stt_result toy_hash slash_join crux ∅ "hello" gpt_down_env)).
Proof.
  destruct (audit_log_mirrors_transcript (py := ascii_text)
              toy_hash slash_join crux ∅ "hello" gpt_down_env
              "./logs/crux.jsonl") as [_ H];
    [reflexivity | discriminate | apply H; reflexivity].
Defined.

(** A log file that cannot be written: the transcript is as before and
    the log stays empty. *)
Example read_only_log_ex :
  transcripts
    (snd (handle_user_text toy_hash slash_join crux ∅ "hello" read_only_log_env))
  = [("user", "hello"); ("assistant", not_understood)] /\
  audit_lines "./logs/crux.jsonl"
    (snd (handle_user_text toy_hash slash_join crux ∅ "hello" read_only_log_env))
  = [].
Proof. vm_compute. split; reflexivity. Qed.

Lemma always_answers_without_gpt_witness :
  exists answer,
    answer <> "" /\
    fst (route_command crux "hello" gpt_down_env) = Returns answer /\
    transcripts
      (snd (handle_user_text toy_hash slash_join crux ∅ "hello" gpt_down_env))
    = [("user", "hello"); ("assistant", answer)].
Proof.
  apply (always_answers_without_gpt (py := ascii_text)
           toy_hash slash_join crux ∅ "hello" gpt_down_env).
  reflexivity.
Defined.

Lemma without_key_never_asks_witness :
  gpt_requests
    (snd (handle_user_text toy_hash slash_join crux ∅ "hello" gpt_down_env))
  = [].
Proof.
  apply (without_key_never_asks (py := ascii_text)
           toy_hash slash_join crux ∅ "hello" gpt_down_env
           keyless_gpt empty_environ);
    reflexivity.
Defined.

Lemma constructed_engine_models_witness :
  running vosk_engine = false /\
  (whisper_model vosk_engine = None \/ vosk_model vosk_engine = None) /\
  (is_Some (whisper_model vosk_engine) ->
   offline_mode vosk_engine = true /\ offline_engine vosk_engine = "whisper" /\
   whisper vosk_load_env = true) /\
  (is_Some (vosk_model vosk_engine) ->
   offline_mode vosk_engine = true /\ offline_engine vosk_engine = "vosk" /\
   vosk vosk_load_env = true).
Proof.
  apply (constructed_engine_models notepad_cfg vosk_stt vosk_load_env vosk_engine).
  reflexivity.
Defined.


Lemma hosted_recognition_failure_witness :
  recognize hosted_engine notepad_cfg false mumble_env
  = (Returns "", [GoogleRequest "en-US"]).
Proof.
  apply (hosted_recognition_failure_is_empty_text (py := ascii_text)
           hosted_engine notepad_cfg false mumble_env);
    [reflexivity | reflexivity | now left].
Defined.

Lemma round_reaches_assistant_witness :
  Audio = Audio /\
  exists text,
    text <> "" /\
    fst (recognize hosted_engine (cfg crux) false heard_env) = Returns text /\
    listen_round toy_hash slash_join hosted_engine false crux ∅ Audio
      heard_env gpt_down_env
    = (fst (on_stt_result toy_hash slash_join crux ∅ text gpt_down_env),
       map Stt (snd (recognize hosted_engine (cfg crux) false heard_env))
       ++ map Called
            (snd (on_stt_result toy_hash slash_join crux ∅ text gpt_down_env))).
Proof.
  apply (round_reaches_assistant_only_with_text (py := ascii_text)
           toy_hash slash_join hosted_engine false crux ∅ Audio
           heard_env gpt_down_env).
  right. reflexivity.
Defined.

Lemma mic_switch_stays_consistent_witness :
  listening (fst (toggles mic_off [true; true; false; true]))
  = running (stt_engine (fst (toggles mic_off [true; true; false; true]))) /\
  length (List.filter is_thread_start
            (snd (toggles mic_off [true; true; false; true])))
  = length (List.filter (String.eqb "Listening...")
              (statuses (snd (toggles mic_off [true; true; false; true])))).
Proof.
  apply (mic_switch_stays_consistent mic_off [true; true; false; true]).
  reflexivity.
Defined.

(** Toggling on twice, off and on again shows three messages. *)
Example toggles_ex :
  statuses (snd (toggles mic_off [true; true; false; true]))
  = ["Listening..."; "Mic muted"; "Listening..."].
Proof. reflexivity. Qed.

Lemma html_escape_is_injective_witness :
  "a < b & c" = "a < b & c".
Proof.
  apply (html_escape_is_injective "a < b & c" "a < b & c"). reflexivity.
Defined.

Example html_escape_ex :
  Gui._html_escape ("1 < 2 && 3 > 2" +:+ Commands.nl +:+ "<br>")
  = "1 &lt; 2 &amp;&amp; 3 &gt; 2<br>&lt;br&gt;".
Proof. reflexivity. Qed.

End MoreAssistantExamples.
